(** * znc-logviewer: a shallow embedding of [logviewer.py]

    The plugin is glue around Python's [str], [os.path], [glob], [re] and
    text-mode file reading.  Python text is represented by Rocq strings
    holding its UTF-8 encoding; the output channel ([PutModule]) is the list
    of lines handed to it; exceptions are explicit. *)

From Stdlib Require Import Strings.String Strings.Ascii Strings.Byte.
From Stdlib Require Import Lists.List Lists.ListDec.
From Stdlib Require Import Arith.PeanoNat Bool.Bool NArith.BinNat.
From Stdlib Require Import Sorting.Sorted Sorting.Permutation micromega.Lia.
Import ListNotations.

Local Open Scope list_scope.
Local Open Scope string_scope.
#[local] Set Warnings "-register-all".

(** ** Python [str] methods used by the plugin *)

Module str.

Definition is_upper (c : ascii) : bool :=
  (65 <=? nat_of_ascii c)%nat && (nat_of_ascii c <=? 90)%nat.

Definition lower_char (c : ascii) : ascii :=
  if is_upper c then ascii_of_nat (nat_of_ascii c + 32) else c.

(** [s.isascii()]: every character is below 128. *)
Fixpoint isascii (s : string) : bool :=
  match s with
  | EmptyString => true
  | String c s' => (nat_of_ascii c <? 128)%nat && isascii s'
  end.

(** [s.lower()] on ASCII text ([isascii s]), where it is exact.  Python also
    folds the cased characters beyond ASCII; here their bytes are kept, so
    what is stated about names, verbs and words that may hold such
    characters assumes [isascii]. *)
Fixpoint lower (s : string) : string :=
  match s with
  | EmptyString => EmptyString
  | String c s' => String (lower_char c) (lower s')
  end.

(** The ASCII characters for which [str.isspace] holds: TAB, LF, VT, FF,
    CR, the separators 0x1c-0x1f and the space.  Python knows further
    whitespace beyond ASCII (U+0085, U+00A0, U+2000 and others), which this
    leaves inside words: [split] is exact on ASCII text, and what is stated
    about the words of a line assumes [isascii]. *)
Definition isspace (c : ascii) : bool :=
  let n := nat_of_ascii c in
  ((9 <=? n)%nat && (n <=? 13)%nat) || ((28 <=? n)%nat && (n <=? 32)%nat).

(** [s.split()]: the maximal runs of non-whitespace characters. *)
Fixpoint split (s : string) : list string :=
  match s with
  | EmptyString => []
  | String c s' =>
      if isspace c then split s'
      else
        match s' with
        | EmptyString => [String c EmptyString]
        | String c' _ =>
            if isspace c' then String c EmptyString :: split s'
            else
              match split s' with
              | t :: ts => String c t :: ts
              | [] => [String c EmptyString]
              end
        end
  end.

(** [s.startswith(p)]. *)
Fixpoint startswith (s p : string) {struct p} : bool :=
  match p, s with
  | EmptyString, _ => true
  | String a p', String b s' => Ascii.eqb a b && startswith s' p'
  | String _ _, EmptyString => false
  end.

(** [s.endswith(p)]. *)
Fixpoint endswith (s p : string) : bool :=
  (s =? p) ||
  match s with
  | EmptyString => false
  | String _ s' => endswith s' p
  end.

(** [new.join(s)] character by character, with [new] after each one. *)
Fixpoint intersperse (new s : string) : string :=
  match s with
  | EmptyString => EmptyString
  | String c s' => String c (new ++ intersperse new s')
  end.

(** The scan of [s.replace(old, new)] for a non-empty [old]: [skip] counts
    the characters of the occurrence just found that are still to be
    passed over. *)
Fixpoint replace_scan (skip : nat) (old new s : string) : string :=
  match s with
  | EmptyString => EmptyString
  | String c s' =>
      match skip with
      | S k => replace_scan k old new s'
      | O =>
          if startswith s old
          then new ++ replace_scan (String.length old - 1) old new s'
          else String c (replace_scan 0 old new s')
      end
  end.

(** [s.replace(old, new)]: every non-overlapping occurrence of [old],
    found from the left, becomes [new]. *)
Definition replace (s old new : string) : string :=
  if old =? "" then new ++ intersperse new s
  else replace_scan 0 old new s.

(** [s[:-len(suffix)]] when [s] ends with [suffix], else [None]. *)
Fixpoint strip_suffix (suffix s : string) : option string :=
  if s =? suffix then Some EmptyString
  else
    match s with
    | EmptyString => None
    | String c s' =>
        match strip_suffix suffix s' with
        | Some r => Some (String c r)
        | None => None
        end
    end.

(** Nothing but whitespace (the empty string included). *)
Fixpoint all_space (s : string) : bool :=
  match s with
  | EmptyString => true
  | String c s' => isspace c && all_space s'
  end.

Fixpoint contains (c : ascii) (s : string) : bool :=
  match s with
  | EmptyString => false
  | String a s' => Ascii.eqb a c || contains c s'
  end.

End str.

(** ** [os.path] on POSIX *)

Module posixpath.

Definition sep : ascii := "/"%char.

(** One step of the loop of [posixpath.join]. *)
Definition join2 (path b : string) : string :=
  if str.startswith b "/" then b
  else if (path =? "") || str.endswith path "/" then path ++ b
  else path ++ "/" ++ b.

(** [os.path.join(a, *p)]. *)
Definition join (a : string) (p : list string) : string :=
  fold_left join2 p a.

(** [(p[:i], p[i:])] for [i = p.rfind("/") + 1]. *)
Fixpoint cut (p : string) : string * string :=
  match p with
  | EmptyString => (EmptyString, EmptyString)
  | String c p' =>
      let (h, t) := cut p' in
      if h =? "" then
        if Ascii.eqb c sep then (String c EmptyString, p')
        else (EmptyString, String c p')
      else (String c h, t)
  end.

(** A path component that [join] appends after a separator and that leaves
    the next one to be appended the same way. *)
Definition plain (s : string) : bool :=
  negb (s =? "") && negb (str.startswith s "/") && negb (str.endswith s "/").

(** [os.path.basename(p)]. *)
Definition basename (p : string) : string := snd (cut p).

Fixpoint all_sep (s : string) : bool :=
  match s with
  | EmptyString => true
  | String c s' => Ascii.eqb c sep && all_sep s'
  end.

(** [s.rstrip("/")]. *)
Fixpoint rstrip_sep (s : string) : string :=
  match s with
  | EmptyString => EmptyString
  | String c s' => if all_sep s then EmptyString else String c (rstrip_sep s')
  end.

(** [os.path.split(p)]. *)
Definition split (p : string) : string * string :=
  let (head, tail) := cut p in
  if negb (head =? "") && negb (all_sep head)
  then (rstrip_sep head, tail) else (head, tail).

(** The components of a path between separators. *)
Fixpoint components (p : string) : list string :=
  match p with
  | EmptyString => [EmptyString]
  | String c p' =>
      if Ascii.eqb c sep then EmptyString :: components p'
      else
        match components p' with
        | x :: xs => String c x :: xs
        | [] => [String c EmptyString]
        end
  end.

End posixpath.

(** ** The file system the plugin reads *)

(** A regular file: its bytes, and the I/O fault reading it meets, if any.
    [Some (n, msg)] is an [OSError] whose text is [msg], raised once [n]
    lines have been delivered; [n = 0] is an [open] that fails. *)
Record file : Type := mkFile {
  f_data : list byte;
  f_fault : option (nat * string)
}.

(** A directory lists its entries in the order the system enumerates them. *)
Inductive node : Type :=
| File (f : file)
| Dir (entries : list (string * node)).

Fixpoint lookup (name : string) (es : list (string * node)) : option node :=
  match es with
  | [] => None
  | (n, x) :: es' => if n =? name then Some x else lookup name es'
  end.

(** Resolution of the components of a path from the directory [cur], whose
    ancestors are [up] (nearest first).  A component below a regular file
    fails, as do missing names; [..] at the root stays at the root. *)
Fixpoint walk (up : list node) (cur : node) (comps : list string)
  : option node :=
  match comps with
  | [] => Some cur
  | c :: cs =>
      match cur with
      | File _ => None
      | Dir es =>
          if (c =? "") || (c =? ".") then walk up cur cs
          else if c =? ".." then
            match up with
            | [] => walk [] cur cs
            | p :: up' => walk up' p cs
            end
          else
            match lookup c es with
            | Some n => walk (cur :: up) n cs
            | None => None
            end
      end
  end.

(** [os.stat(path)]: the working directory is the root, and the empty path
    names nothing. *)
Definition resolve (root : node) (path : string) : option node :=
  if path =? "" then None else walk [] root (posixpath.components path).

(** [os.path.isfile], [os.path.isdir], [os.path.lexists]. *)
Definition isfile (root : node) (path : string) : bool :=
  match resolve root path with Some (File _) => true | _ => false end.

Definition isdir (root : node) (path : string) : bool :=
  match resolve root path with Some (Dir _) => true | _ => false end.

Definition lexists (root : node) (path : string) : bool :=
  match resolve root path with Some _ => true | None => false end.

(** A name a directory entry can bear: not empty, not [.] or [..], and
    free of separators. *)
Definition valid_name (n : string) : bool :=
  negb (n =? "") && negb (n =? ".") && negb (n =? "..")
  && negb (str.contains posixpath.sep n).

Fixpoint distinct (l : list string) : bool :=
  match l with
  | [] => true
  | x :: xs => negb (existsb (String.eqb x) xs) && distinct xs
  end.

(** The entries of a directory as a file system holds them: valid names, no
    name twice. *)
Definition well_formed_entries (es : list (string * node)) : bool :=
  forallb (fun e => valid_name (fst e)) es && distinct (map fst es).

(** The regular file a path leads to. *)
Definition file_at (root : node) (path : string) : option file :=
  match resolve root path with Some (File f) => Some f | _ => None end.

Definition is_dir_node (n : node) : bool :=
  match n with Dir _ => true | File _ => false end.

(** ** The parts of the Python runtime taken as given *)

(** [fnmatch name pat] tells whether [fnmatch.filter] keeps [name] for the
    pattern [pat], and [re_compile pat] is [re.compile(pat)]: either the
    text of the [re.error] it raises, or the [search] predicate of the
    compiled pattern. *)
Class PyRuntime : Type := {
  fnmatch : string -> string -> bool;
  re_compile : string -> string + (string -> bool)
}.

(** ** [glob.glob] *)

Module glob.

Definition magic_char (c : ascii) : bool :=
  Ascii.eqb c "*" || Ascii.eqb c "?" || Ascii.eqb c "[".

Fixpoint has_magic (s : string) : bool :=
  match s with
  | EmptyString => false
  | String c s' => magic_char c || has_magic s'
  end.

Definition _ishidden (path : string) : bool := str.startswith path ".".

Definition NUL : ascii := ascii_of_nat 0.

(** A string [glob] takes literally and without raising: no NUL and no
    magic character in it. *)
Definition tame (s : string) : bool :=
  negb (str.contains NUL s) && negb (has_magic s).

(** [_listdir(dirname, dironly)]: nothing when [dirname] is not a
    directory; the empty name stands for the working directory.  The
    [OSError] of a failed [os.scandir] is caught there and gives no name;
    the [ValueError] it raises on a name with an embedded NUL is not, and is
    left out here, as is the [RecursionError] of a pattern with about a
    thousand magic components: what is stated about listings assumes paths
    that are [tame]. *)
Definition _listdir (root : node) (dirname : string) (dironly : bool)
  : list string :=
  match resolve root (if dirname =? "" then "." else dirname) with
  | Some (Dir es) =>
      map fst (filter (fun e => negb dironly || is_dir_node (snd e)) es)
  | _ => []
  end.

Section WithRuntime.
Context {rt : PyRuntime}.

Definition _glob1 (root : node) (dirname pattern : string)
           (dironly : bool) : list string :=
  let names := _listdir root dirname dironly in
  let names :=
    if negb (_ishidden pattern)
    then filter (fun x => negb (_ishidden x)) names else names in
  filter (fun x => fnmatch x pattern) names.

Definition _glob0 (root : node) (dirname basename : string)
  : list string :=
  if negb (basename =? "") then
    if lexists root (posixpath.join dirname [basename])
    then [basename] else []
  else
    if isdir root dirname then [basename] else [].

(** [_iglob(pathname, dironly)] with [recursive=False]; [None] only when
    the fuel runs out. *)
Fixpoint _iglob (fuel : nat) (root : node) (pathname : string)
         (dironly : bool) : option (list string) :=
  match fuel with
  | O => None
  | S fuel' =>
      let (dirname, basename) := posixpath.split pathname in
      if negb (has_magic pathname) then
        if negb (basename =? "") then
          Some (if lexists root pathname then [pathname] else [])
        else
          Some (if isdir root dirname then [pathname] else [])
      else if dirname =? "" then
        Some (_glob1 root "" basename dironly)
      else
        let dirs :=
          if negb (dirname =? pathname) && has_magic dirname
          then _iglob fuel' root dirname true
          else Some [dirname] in
        match dirs with
        | None => None
        | Some ds =>
            Some
              (flat_map
                 (fun d =>
                    map (fun name => posixpath.join d [name])
                        (if has_magic basename
                         then _glob1 root d basename dironly
                         else _glob0 root d basename))
                 ds)
        end
  end.

(** [glob.glob(pathname)]. *)
Definition glob (root : node) (pathname : string) : list string :=
  match _iglob (S (String.length pathname)) root pathname false with
  | Some r => r
  | None => []
  end.

End WithRuntime.

End glob.

(** ** Exceptions and the output channel *)

Inductive exn : Type :=
| IndexError (msg : string)
| NameError (msg : string)
| NotImplementedError (msg : string)
| AttributeError (msg : string)
| OSError (msg : string)
| ReError (msg : string).

(** [str(e)]. *)
Definition exn_str (e : exn) : string :=
  match e with
  | IndexError m | NameError m | NotImplementedError m
  | AttributeError m | OSError m | ReError m => m
  end.

Inductive outcome (A : Type) : Type :=
| Returned (a : A)
| Raised (e : exn).
Arguments Returned {A} a.
Arguments Raised {A} e.

(** A computation: the lines it handed to [PutModule], in order, and how it
    ended. *)
Definition M (A : Type) : Type := (list string * outcome A)%type.

Definition ret {A : Type} (a : A) : M A := ([], Returned a).

Definition raise {A : Type} (e : exn) : M A := ([], Raised e).

Definition bind {A B : Type} (m : M A) (k : A -> M B) : M B :=
  match m with
  | (out, Returned a) => let (out', r) := k a in ((out ++ out')%list, r)
  | (out, Raised e) => (out, Raised e)
  end.

(** [try: m except Exception as e: h e]. *)
Definition try_except {A : Type} (m : M A) (h : exn -> M A) : M A :=
  match m with
  | (out, Returned a) => (out, Returned a)
  | (out, Raised e) => let (out', r) := h e in ((out ++ out')%list, r)
  end.

Notation "m ;; k" := (bind m (fun _ => k))
  (at level 61, right associativity).

Definition PutModule (line : string) : M unit := ([line], Returned tt).

(** The double quote character, as a string. *)
Definition DQUOTE : string := String (ascii_of_nat 34) EmptyString.

(** [for x in xs: body x]. *)
Fixpoint for_each {A : Type} (xs : list A) (body : A -> M unit) : M unit :=
  match xs with
  | [] => ret tt
  | x :: xs' => body x ;; for_each xs' body
  end.

(** ** Text-mode reading *)

Module textio.

(** U+FFFD in UTF-8. *)
Definition REPLACEMENT : string :=
  String (ascii_of_nat 239) (String (ascii_of_nat 191)
    (String (ascii_of_nat 189) EmptyString)).

Definition between (lo hi : N) (b : byte) : bool :=
  (lo <=? Byte.to_N b)%N && (Byte.to_N b <=? hi)%N.

Definition chars (bs : list byte) (rest : string) : string :=
  fold_right (fun b s => String (ascii_of_byte b) s) rest bs.

(** What a leading byte announces: an ASCII character, a sequence with
    [more] continuation bytes whose first one lies in [lo..hi], or
    nothing well formed. *)
Inductive lead : Type :=
| Single
| Multi (more : nat) (lo hi : N)
| Stray.

Definition classify (b : byte) : lead :=
  if between 0 127 b then Single
  else if between 194 223 b then Multi 1 128 191
  else if between 224 224 b then Multi 2 160 191
  else if between 237 237 b then Multi 2 128 159
  else if between 225 239 b then Multi 2 128 191
  else if between 240 240 b then Multi 3 144 191
  else if between 241 243 b then Multi 3 128 191
  else if between 244 244 b then Multi 3 128 143
  else Stray.

(** [bytes.decode("utf-8", errors="replace")]: each maximal ill-formed
    prefix of a sequence becomes one U+FFFD, and decoding resumes at the
    byte that broke it. *)
Fixpoint decode (bs : list byte) : string :=
  match bs with
  | [] => EmptyString
  | b0 :: t0 =>
      match classify b0 with
      | Single => String (ascii_of_byte b0) (decode t0)
      | Stray => REPLACEMENT ++ decode t0
      | Multi more lo hi =>
          match t0 with
          | [] => REPLACEMENT
          | b1 :: t1 =>
              if negb (between lo hi b1) then REPLACEMENT ++ decode t0
              else if (more =? 1)%nat then chars [b0; b1] (decode t1)
              else
                match t1 with
                | [] => REPLACEMENT
                | b2 :: t2 =>
                    if negb (between 128 191 b2)
                    then REPLACEMENT ++ decode t1
                    else if (more =? 2)%nat
                    then chars [b0; b1; b2] (decode t2)
                    else
                      match t2 with
                      | [] => REPLACEMENT
                      | b3 :: t3 =>
                          if negb (between 128 191 b3)
                          then REPLACEMENT ++ decode t2
                          else chars [b0; b1; b2; b3] (decode t3)
                      end
                end
          end
      end
  end.

Definition LF : ascii := ascii_of_nat 10.
Definition CR : ascii := ascii_of_nat 13.

(** Universal newlines ([newline=None]): CR LF and a lone CR are read as
    LF. *)
Fixpoint translate_newlines (s : string) : string :=
  match s with
  | EmptyString => EmptyString
  | String c s' =>
      if Ascii.eqb c CR then
        match s' with
        | String c' s'' =>
            if Ascii.eqb c' LF then String LF (translate_newlines s'')
            else String LF (translate_newlines s')
        | EmptyString => String LF EmptyString
        end
      else String c (translate_newlines s')
  end.

(** The lines a text file object iterates over: each keeps its LF; the
    last one has none when the text does not end with one. *)
Fixpoint lines (s : string) : list string :=
  match s with
  | EmptyString => []
  | String c s' =>
      if Ascii.eqb c LF then String c EmptyString :: lines s'
      else
        match lines s' with
        | [] => [String c EmptyString]
        | l :: ls => String c l :: ls
        end
  end.

(** The text a list of lines spells out. *)
Definition unlines (ls : list string) : string :=
  fold_right String.append EmptyString ls.

(** Well-formed UTF-8: every leading byte is followed by the continuation
    bytes it announces. *)
Fixpoint well_formed (bs : list byte) : bool :=
  match bs with
  | [] => true
  | b0 :: t0 =>
      match classify b0 with
      | Single => well_formed t0
      | Stray => false
      | Multi more lo hi =>
          match t0 with
          | [] => false
          | b1 :: t1 =>
              between lo hi b1
              && (if (more =? 1)%nat then well_formed t1
                  else
                    match t1 with
                    | [] => false
                    | b2 :: t2 =>
                        between 128 191 b2
                        && (if (more =? 2)%nat then well_formed t2
                            else
                              match t2 with
                              | [] => false
                              | b3 :: t3 =>
                                  between 128 191 b3 && well_formed t3
                              end)
                    end)
          end
      end
  end.

(** Bytes that text-mode reading hands over as they are: well-formed UTF-8
    without a CR. *)
Definition plain_text (bs : list byte) : bool :=
  well_formed bs
  && forallb (fun b => negb (Ascii.eqb (ascii_of_byte b) CR)) bs.

(** The lines of a file read with [encoding="utf-8"],
    [errors="replace"]. *)
Definition readlines (f : file) : list string :=
  lines (translate_newlines (decode (f_data f))).

(** An open text file: the lines it will deliver and the fault that ends
    the iteration, if any. *)
Record stream : Type := mkStream {
  delivered : list string;
  broken : option exn
}.

(** [open(path, "r", encoding=sys.getdefaultencoding(),
    errors="replace")]. *)
Definition open (root : node) (path : string) : M stream :=
  match resolve root path with
  | None =>
      raise (OSError ("[Errno 2] No such file or directory: '"
                        ++ path ++ "'"))
  | Some (Dir _) =>
      raise (OSError ("[Errno 21] Is a directory: '" ++ path ++ "'"))
  | Some (File f) =>
      match f_fault f with
      | Some (O, msg) => raise (OSError msg)
      | Some (n, msg) =>
          ret (mkStream (firstn n (readlines f)) (Some (OSError msg)))
      | None => ret (mkStream (readlines f) None)
      end
  end.

(** [for line in f: body line]. *)
Definition iterate (f : stream) (body : string -> M unit) : M unit :=
  for_each (delivered f) body ;;
  match broken f with
  | Some e => raise e
  | None => ret tt
  end.

End textio.

(** [sorted(xs)] on strings: a stable insertion into ascending order. *)
Fixpoint insert_sorted (x : string) (xs : list string) : list string :=
  match xs with
  | [] => [x]
  | y :: ys =>
      if String.leb x y then x :: xs else y :: insert_sorted x ys
  end.

Definition sorted (xs : list string) : list string :=
  fold_right insert_sorted [] xs.

(** Ascending order of strings: character by character, by code. *)
Definition leb_rel (a b : string) : Prop := String.leb a b = true.

(** ** What the host supplies to a command *)

(** The home directory ([os.path.expanduser("~")]), the names of the user
    and of the network the module is attached to, and the disk. *)
Record Env : Type := mkEnv {
  env_home : string;
  env_user : string;
  env_network : string;
  env_fs : node
}.

(** ** [class IrcLogPathBuilder] *)

Module IrcLogPathBuilder.

Record t : Type := __init__ { network : string; user : string }.

Definition __getBasePath (home : string) (self : t) : string :=
  posixpath.join home
    [".znc"; "users"; user self; "moddata"; "log"; network self].

Definition GetLogPath (home : string) (self : t) (window date : string)
  : string :=
  posixpath.join (__getBasePath home self) [window; date ++ ".log"].

Section WithRuntime.
Context {rt : PyRuntime}.

Definition GetLogsDates (home : string) (fs : node) (self : t)
           (window : string) : list string :=
  let aPath := posixpath.join (__getBasePath home self)
                              [window; "*.log"] in
  map (fun fn => str.replace (posixpath.basename fn) ".log" "")
      (glob.glob fs aPath).

Definition GetWinList (home : string) (fs : node) (self : t)
  : list string :=
  let aPath := posixpath.join (__getBasePath home self) ["*"] in
  map posixpath.basename (filter (isdir fs) (glob.glob fs aPath)).

End WithRuntime.

End IrcLogPathBuilder.

(** ** [class IrcLog] *)

Module IrcLog.

Record t : Type := mk {
  network : string;
  user : string;
  window : string;
  date : string;
  path : string
}.

Definition __init__ (home : string) (network user window date : string)
  : t :=
  let aPathBuilder := IrcLogPathBuilder.__init__ network user in
  mk network user window date
     (IrcLogPathBuilder.GetLogPath home aPathBuilder window date).

Definition GetPath (self : t) : string := path self.

Definition Exists (fs : node) (self : t) : bool := isfile fs (GetPath self).

Definition __enter__ (fs : node) (self : t) : M textio.stream :=
  textio.open fs (GetPath self).

End IrcLog.

(** ** [class AbstractLogViewerCommand] and its four subclasses *)

(** The attributes every command carries. *)
Record Attrs : Type := mkAttrs {
  __command : string;
  __description : string;
  __argsStr : string
}.

(** A command object: its attributes and the [_DoPerform] of its class,
    which receives them as [self]. *)
Record AbstractLogViewerCommand : Type := mkCommand {
  attrs : Attrs;
  _DoPerform : Attrs -> Env -> list string -> M unit
}.

Definition Abstract__init__ : Attrs := mkAttrs "" "" "".

Definition _setCommand (self : Attrs) (cmd : string) : Attrs :=
  mkAttrs cmd (__description self) (__argsStr self).

Definition _setDescription (self : Attrs) (desc : string) : Attrs :=
  mkAttrs (__command self) desc (__argsStr self).

Definition _setArgumentString (self : Attrs) (args : string) : Attrs :=
  mkAttrs (__command self) (__description self) args.

Definition GetName (self : AbstractLogViewerCommand) : string :=
  __command (attrs self).

Definition GetDescription (self : AbstractLogViewerCommand) : string :=
  __description (attrs self).

Definition GetArgumentString (self : AbstractLogViewerCommand) : string :=
  __argsStr (attrs self).

Definition Print (s : string) : M unit := PutModule s.

Definition PrintErr (s : string) : M unit := Print ("ERROR: " ++ s).

Definition Describe (self : AbstractLogViewerCommand) : string :=
  GetName self ++ " - " ++ GetDescription self.

Definition Help (self : Attrs) : M unit :=
  Print (__command self ++ " " ++ __argsStr self) ;;
  Print (__description self).

(** [args] is [None] or a list. *)
Definition Perform (self : AbstractLogViewerCommand) (env : Env)
           (args : option (list string)) : M unit :=
  if match args with
     | Some (a0 :: _) => str.lower a0 =? "help"
     | _ => false
     end
  then Help (attrs self)
  else
    let args := match args with None => [] | Some l => l end in
    _DoPerform self (attrs self) env args.

(** The base class leaves the action undefined. *)
Definition Abstract_DoPerform (self : Attrs) (env : Env)
           (args : list string) : M unit :=
  raise (NotImplementedError "").

Section Commands.
Context {rt : PyRuntime}.

(** *** [LogCatCommand] *)

Definition LogCat__showLog (env : Env) (window date : string) : M unit :=
  let aIrcLog := IrcLog.__init__ (env_home env) (env_network env)
                                 (env_user env) window date in
  if negb (IrcLog.Exists (env_fs env) aIrcLog) then
    PrintErr ("No such log file for " ++ window ++ " on " ++ date
                ++ " (" ++ IrcLog.GetPath aIrcLog ++ ")")
  else
    Print ("Content of " ++ IrcLog.GetPath aIrcLog ++ ":") ;;
    try_except
      (bind (IrcLog.__enter__ (env_fs env) aIrcLog)
            (fun f => textio.iterate f (fun line => Print line)))
      (fun e => PrintErr (exn_str e)).

Definition LogCat_DoPerform (self : Attrs) (env : Env)
           (args : list string) : M unit :=
  match args with
  | [aWindow; aDate] => LogCat__showLog env aWindow aDate
  | _ => Help self
  end.

Definition LogCatCommand : AbstractLogViewerCommand :=
  mkCommand
    (_setDescription
       (_setArgumentString (_setCommand Abstract__init__ "LogCat")
                           "<window> <date>")
       "View log file for window and date (current network).")
    LogCat_DoPerform.

(** *** [LogGrepCommand] *)

Definition LogGrep__grepLog (env : Env) (window date regex : string)
  : M unit :=
  let aIrcLog := IrcLog.__init__ (env_home env) (env_network env)
                                 (env_user env) window date in
  if negb (IrcLog.Exists (env_fs env) aIrcLog) then
    PrintErr ("No such log file for " ++ window ++ " on " ++ date
                ++ " (" ++ IrcLog.GetPath aIrcLog ++ ")")
  else
    Print ("Content of " ++ IrcLog.GetPath aIrcLog ++ " matching "
             ++ regex ++ ":") ;;
    try_except
      (match re_compile regex with
       | inl msg => raise (ReError msg)
       | inr search =>
           bind (IrcLog.__enter__ (env_fs env) aIrcLog)
                (fun f =>
                   textio.iterate f
                     (fun line =>
                        if search line then Print line else ret tt))
       end)
      (fun e => PrintErr (exn_str e)).

Definition LogGrep_DoPerform (self : Attrs) (env : Env)
           (args : list string) : M unit :=
  match args with
  | [aWindow; aDate; aRegex] => LogGrep__grepLog env aWindow aDate aRegex
  | _ => Help self
  end.

Definition LogGrepCommand : AbstractLogViewerCommand :=
  mkCommand
    (_setDescription
       (_setArgumentString (_setCommand Abstract__init__ "LogGrep")
                           "<window> <date> <regex>")
       "Grep log file for window and date (current network) with regex.")
    LogGrep_DoPerform.

(** *** [LogDatesCommand] *)

Definition LogDates_DoPerform (self : Attrs) (env : Env)
           (args : list string) : M unit :=
  match args with
  | [aWindow] =>
      let aPathBuilder :=
        IrcLogPathBuilder.__init__ (env_network env) (env_user env) in
      let aDates :=
        IrcLogPathBuilder.GetLogsDates (env_home env) (env_fs env)
                                       aPathBuilder aWindow in
      if (0 <? List.length aDates)%nat then
        Print ("List of all available log date for window "
                 ++ aWindow ++ ":") ;;
        for_each (sorted aDates) Print
      else
        PrintErr ("No such logs for window " ++ aWindow)
  | _ => Help self
  end.

Definition LogDatesCommand : AbstractLogViewerCommand :=
  mkCommand
    (_setDescription
       (_setArgumentString (_setCommand Abstract__init__ "LogDates")
                           "<window>")
       "List all available dates for window.")
    LogDates_DoPerform.

(** *** [LogWindowsCommand] *)

Definition LogWindows_DoPerform (self : Attrs) (env : Env)
           (args : list string) : M unit :=
  match args with
  | [] =>
      let aPathBuilder :=
        IrcLogPathBuilder.__init__ (env_network env) (env_user env) in
      let aWins :=
        IrcLogPathBuilder.GetWinList (env_home env) (env_fs env)
                                     aPathBuilder in
      if (0 <? List.length aWins)%nat then
        Print "List of all available windows:" ;;
        for_each (sorted aWins) Print
      else
        PrintErr "No such windows logs"
  | _ => Help self
  end.

Definition LogWindowsCommand : AbstractLogViewerCommand :=
  mkCommand
    (_setDescription
       (_setArgumentString (_setCommand Abstract__init__ "LogWindows") "")
       "List all available windows.")
    LogWindows_DoPerform.

End Commands.

(** ** [class LogViewerCommandDispatcher] *)

Module LogViewerCommandDispatcher.

(** The [dict] of commands, in insertion order. *)
Definition dict : Type := list (string * AbstractLogViewerCommand).

Fixpoint dict_get (d : dict) (k : string)
  : option AbstractLogViewerCommand :=
  match d with
  | [] => None
  | (k', v) :: d' => if k' =? k then Some v else dict_get d' k
  end.

Definition dict_in (k : string) (d : dict) : bool :=
  match dict_get d k with Some _ => true | None => false end.

(** [d[k] = v]: a present key keeps its place, a new one goes last. *)
Fixpoint dict_set (d : dict) (k : string) (v : AbstractLogViewerCommand)
  : dict :=
  match d with
  | [] => [(k, v)]
  | (k', v') :: d' =>
      if k' =? k then (k', v) :: d' else (k', v') :: dict_set d' k v
  end.

Definition keys (d : dict) : list string := map fst d.
Definition values (d : dict) : list AbstractLogViewerCommand := map snd d.

Record t : Type := mk { __commands : dict }.

Definition __init__ : t := mk [].

Definition AddCommand (self : t) (command : AbstractLogViewerCommand)
  : outcome t :=
  if dict_in (str.lower (GetName command)) (__commands self) then
    Raised (NameError "command already registered")
  else
    Returned (mk (dict_set (__commands self)
                           (str.lower (GetName command)) command)).

(** The value of [cmdArgs] in [Dispatch]: [None], or [args[1:]] when there
    is more than the verb. *)
Definition cmdArgs (args : list string) : option (list string) :=
  if (1 <? List.length args)%nat then Some (tl args) else None.

Definition Dispatch (self : t) (env : Env) (line : string) : M unit :=
  let args := str.split line in
  match args with
  | [] => raise (IndexError "list index out of range")
  | args0 :: _ =>
      match dict_get (__commands self) (str.lower args0) with
      | Some cmd => Perform cmd env (cmdArgs args)
      | None =>
          if str.lower args0 =? "help" then
            PutModule "View and search logs." ;;
            PutModule "---------------------" ;;
            PutModule "Available commands: " ;;
            for_each (values (__commands self))
                     (fun aCmd => PutModule (Describe aCmd)) ;;
            PutModule ("Use " ++ DQUOTE ++ "<command> help" ++ DQUOTE
                         ++ " for usage info.")
          else
            PutModule ("Command not found: " ++ args0) ;;
            PutModule "Use Help for list of available commands"
      end
  end.

End LogViewerCommandDispatcher.

(** ** [class logviewer]: the module the host loads *)

Module logviewer.

Import LogViewerCommandDispatcher.

(** [__cmdDispatcher] is absent until [OnLoad] has run. *)
Record t : Type := mk { __cmdDispatcher : option LogViewerCommandDispatcher.t }.

Definition unloaded : t := mk None.

(** The calls to [AddCommand] in turn: the dispatcher reached, and the
    exception that stopped the sequence, if any. *)
Fixpoint AddCommands (d : LogViewerCommandDispatcher.t)
         (cmds : list AbstractLogViewerCommand)
  : LogViewerCommandDispatcher.t * option exn :=
  match cmds with
  | [] => (d, None)
  | c :: cs =>
      match AddCommand d c with
      | Raised e => (d, Some e)
      | Returned d' => AddCommands d' cs
      end
  end.

(** [OnLoad] for a module registering the handlers [cmds]: the module,
    [message.s] and the value returned. *)
Definition OnLoad_registering (cmds : list AbstractLogViewerCommand)
           (self : t) (args message : string) : t * string * bool :=
  match AddCommands LogViewerCommandDispatcher.__init__ cmds with
  | (d, Some e) => (mk (Some d), "Error: " ++ exn_str e, false)
  | (d, None) => (mk (Some d), message, true)
  end.

Section WithRuntime.
Context {rt : PyRuntime}.

Definition OnLoad : t -> string -> string -> t * string * bool :=
  OnLoad_registering
    [LogCatCommand; LogGrepCommand; LogDatesCommand; LogWindowsCommand].

End WithRuntime.

Definition OnModCommand (self : t) (env : Env) (line : string) : M bool :=
  match __cmdDispatcher self with
  | None =>
      raise (AttributeError
               "'logviewer' object has no attribute '_logviewer__cmdDispatcher'")
  | Some d => Dispatch d env line ;; ret true
  end.

(** Modelled from the spec: the host's side of the module lifecycle, which
    is not part of the source.  A module whose [OnLoad] returned [False]
    is not loaded, so no command line is ever handed to it. *)
Definition host_command (loaded : t * string * bool) (env : Env)
           (line : string) : option (M bool) :=
  let '(self, _, ok) := loaded in
  if ok then Some (OnModCommand self env line) else None.

End logviewer.

(** ** A concrete runtime and disk for the examples *)

(** Shell-style matching with [*] and [?] only. *)
Fixpoint wildcard (pat name : string) : bool :=
  match pat with
  | EmptyString => name =? ""
  | String p pat' =>
      if Ascii.eqb p "*" then
        (fix star (n : string) : bool :=
           wildcard pat' n
           || match n with
              | EmptyString => false
              | String _ n' => star n'
              end) name
      else
        match name with
        | EmptyString => false
        | String c name' =>
            (Ascii.eqb p "?" || Ascii.eqb p c) && wildcard pat' name'
        end
  end.

(** [sub in s]. *)
Fixpoint substring_of (sub s : string) : bool :=
  str.startswith s sub
  || match s with
     | EmptyString => false
     | String _ s' => substring_of sub s'
     end.

(** A runtime that agrees with Python on the patterns of the examples:
    glob patterns without a bracket, the regular expression ["("], which
    does not compile, and regular expressions made of letters only, which
    search for themselves. *)
#[export] Instance demo_runtime : PyRuntime := {|
    fnmatch := fun name pat => wildcard pat name;
    re_compile := fun pat =>
      if pat =? "("
      then inl "missing ), unterminated subpattern at position 0"
      else inr (substring_of pat)
  |}.

Definition NL : string := String textio.LF EmptyString.

Definition text_file (s : string) : node :=
  File (mkFile (list_byte_of_string s) None).

(** A log of two lines. *)
Definition jan1 : file :=
  mkFile (list_byte_of_string ("foo bar" ++ NL ++ "baz" ++ NL)) None.

(** A log of one line that exists but cannot be opened. *)
Definition locked : file :=
  mkFile (list_byte_of_string ("foo secret" ++ NL))
         (Some (O, "[Errno 13] Permission denied: '/home/alice/.znc/users/alice/moddata/log/libera/#chan/locked.log'")).

Definition demo_chan : list (string * node) :=
  [ ("2023-01-02.log", text_file ("hello" ++ NL));
    ("2023-01-01.log", File jan1);
    ("backup.log.log", text_file ("old" ++ NL));
    ("locked.log", File locked);
    ("notes.txt", text_file "n") ].

Definition demo_logroot : list (string * node) :=
  [ ("README", text_file "r");
    ("#chan", Dir demo_chan);
    (".cache", Dir []);
    ("#empty", Dir []) ].

Definition under (names : list string) (es : list (string * node)) : node :=
  fold_right (fun n inner => Dir [(n, inner)]) (Dir es) names.

Definition demo_fs : node :=
  under ["home"; "alice"; ".znc"; "users"; "alice"; "moddata"; "log"; "libera"]
        demo_logroot.

Definition demo_env : Env := mkEnv "/home/alice" "alice" "libera" demo_fs.

(** The same user on a network that has logged nothing yet. *)
Definition bare_env : Env := mkEnv "/home/alice" "alice" "oftc" demo_fs.

(** The dispatcher of the loaded module. *)
Definition loaded_module {rt : PyRuntime} : logviewer.t :=
  fst (fst (logviewer.OnLoad logviewer.unloaded "" "")).

(** A log of three lines whose reading breaks after the second. *)
Definition flaky : file :=
  mkFile (list_byte_of_string
            ("one" ++ NL ++ "two" ++ NL ++ "three" ++ NL))
         (Some (2, "[Errno 5] Input/output error")).

Definition flaky_env : Env :=
  mkEnv "/h" "u" "n"
        (under ["h"; ".znc"; "users"; "u"; "moddata"; "log"; "n"; "w"]
               [("d.log", File flaky)]).

(** The disk of [demo_env] with the logs of [#chan] enumerated in the
    opposite order. *)
Definition reordered_env : Env :=
  mkEnv "/home/alice" "alice" "libera"
        (under ["home"; "alice"; ".znc"; "users"; "alice"; "moddata"; "log";
                "libera"]
               [("#chan", Dir (rev demo_chan))]).

(** A log written with CR LF line ends. *)
Definition crlf : file :=
  mkFile (list_byte_of_string
            ("a" ++ String textio.CR NL ++ "b" ++ String textio.CR NL))
         None.

Definition crlf_env : Env :=
  mkEnv "/h" "u" "n"
        (under ["h"; ".znc"; "users"; "u"; "moddata"; "log"; "n"; "w"]
               [("d.log", File crlf)]).



(** ** What a directory lists *)

(** A home directory, a user and a network that [glob] takes literally. *)
Definition tame_env (env : Env) : bool :=
  glob.tame (env_home env) && glob.tame (env_user env)
  && glob.tame (env_network env).






(** ** What reading a file amounts to *)

(** The lines a file hands over before its fault, if it has one. *)
Definition delivered_lines (f : file) : list string :=
  match f_fault f with
  | None => textio.readlines f
  | Some (n, _) => firstn n (textio.readlines f)
  end.

(** The line a command prints for the fault of a file. *)
Definition fault_report (f : file) : list string :=
  match f_fault f with
  | None => []
  | Some (_, msg) => ["ERROR: " ++ msg]
  end.

(** The two lines of usage of a command. *)
Definition usage (self : Attrs) : list string :=
  [__command self ++ " " ++ __argsStr self; __description self].

(** * Properties *)

Import LogViewerCommandDispatcher.

(** ** The string and path primitives on examples *)

Example lower_ex : str.lower "LogCat" = "logcat".
Proof. reflexivity. Qed.

Example split_ex :
  str.split ("  LogCat   #chan" ++ String (ascii_of_nat 9) "2023-01-01 ")
  = ["LogCat"; "#chan"; "2023-01-01"].
Proof. reflexivity. Qed.

Example replace_ex :
  str.replace "a.log.log" ".log" "" = "a"
  /\ str.replace "x.logger.log" ".log" "" = "xger"
  /\ str.replace "aaa" "aa" "b" = "ba"
  /\ str.replace "ab" "" "-" = "-a-b-".
Proof. repeat split. Qed.

Example join_ex :
  posixpath.join "/home/u" [".znc"; "users"] = "/home/u/.znc/users"
  /\ posixpath.join "/home/u/" ["x"; "/etc"; "passwd"] = "/etc/passwd"
  /\ posixpath.split "/a/b//c.log" = ("/a/b", "c.log")
  /\ posixpath.split "/" = ("/", "")
  /\ posixpath.basename "/a/b/c.log" = "c.log"
  /\ posixpath.components "/a//b/" = [""; "a"; ""; "b"; ""].
Proof. repeat split. Qed.

(** ** Path construction *)

Lemma append_nil_r (s : string) : s ++ "" = s.
Proof.
  induction s as [|c s IH]; cbn; now rewrite ?IH.
Qed.

Lemma append_assoc (a b c : string) : (a ++ b) ++ c = a ++ b ++ c.
Proof.
  induction a as [|x a IH]; cbn; now rewrite ?IH.
Qed.

Lemma length_append (a b : string) :
  String.length (a ++ b) = String.length a + String.length b.
Proof.
  induction a as [|x a IH]; cbn; now rewrite ?IH.
Qed.


Lemma join2_plain (d n : string) :
  d <> "" -> str.endswith d "/" = false -> str.startswith n "/" = false ->
  posixpath.join2 d n = d ++ "/" ++ n.
Proof.
  intros Hne Hend Hn. unfold posixpath.join2. rewrite Hn, Hend.
  apply String.eqb_neq in Hne. now rewrite Hne.
Qed.

Lemma endswith_child (d n : string) :
  n <> "" -> str.endswith n "/" = false ->
  str.endswith (d ++ "/" ++ n) "/" = false.
Proof.
  intros Hne Hend. cbn [append].
  induction d as [|c d IH]; cbn [append str.endswith].
  - rewrite Hend. destruct n; [congruence|]. reflexivity.
  - rewrite IH, orb_false_r.
    destruct d; cbn; now destruct (Ascii.eqb c "/").
Qed.

Lemma endswith_append (p n : string) :
  n <> "" -> str.endswith n "/" = false -> str.endswith (p ++ n) "/" = false.
Proof.
  intros Hne Hend. induction p as [|c p IH]; cbn [append]; [exact Hend|].
  cbn [str.endswith]. rewrite IH, orb_false_r.
  destruct (p ++ n) eqn:E.
  - destruct p; [cbn in E; congruence|discriminate].
  - cbn. now destruct (Ascii.eqb c "/").
Qed.

Lemma plain_inv (s : string) :
  posixpath.plain s = true ->
  s <> "" /\ str.startswith s "/" = false /\ str.endswith s "/" = false.
Proof.
  unfold posixpath.plain. intros H.
  repeat (apply andb_prop in H; destruct H as [H ?]).
  repeat split; try now apply negb_true_iff.
  apply negb_true_iff in H. now apply String.eqb_neq.
Qed.

Lemma join2_plain_step (d n : string) :
  d <> "" /\ str.endswith d "/" = false ->
  posixpath.plain n = true ->
  posixpath.join2 d n = d ++ "/" ++ n
  /\ d ++ "/" ++ n <> ""
  /\ str.endswith (d ++ "/" ++ n) "/" = false.
Proof.
  intros [Hne Hend] Hn. destruct (plain_inv n Hn) as (Hn0 & Hn1 & Hn2).
  repeat split.
  - now apply join2_plain.
  - destruct d; [congruence|discriminate].
  - now apply endswith_child.
Qed.

(** X10.  With a home directory, a user, a network and a window that are
    plain components (not empty, no separator at either end) and a date
    that does not start with a separator, the path has the layout
    [<home>/.znc/users/<user>/moddata/log/<network>/<window>/<date>.log]. *)
Lemma GetLogPath_layout (home user network window date : string) :
  home <> "" -> str.endswith home "/" = false ->
  posixpath.plain user = true ->
  posixpath.plain network = true ->
  posixpath.plain window = true ->
  str.startswith date "/" = false ->
  IrcLogPathBuilder.GetLogPath
    home (IrcLogPathBuilder.__init__ network user) window date
  = home ++ "/.znc/users/" ++ user ++ "/moddata/log/" ++ network
      ++ "/" ++ window ++ "/" ++ date ++ ".log".
Proof.
  intros Hh0 Hh1 Hu Hn Hw Hd.
  unfold IrcLogPathBuilder.GetLogPath, IrcLogPathBuilder.__getBasePath,
    posixpath.join.
  cbn [fold_left IrcLogPathBuilder.user IrcLogPathBuilder.network].
  destruct (join2_plain_step home ".znc" (conj Hh0 Hh1) eq_refl)
    as (-> & H1a & H1b).
  destruct (join2_plain_step _ "users" (conj H1a H1b) eq_refl)
    as (-> & H2a & H2b).
  destruct (join2_plain_step _ user (conj H2a H2b) Hu) as (-> & H3a & H3b).
  destruct (join2_plain_step _ "moddata" (conj H3a H3b) eq_refl)
    as (-> & H4a & H4b).
  destruct (join2_plain_step _ "log" (conj H4a H4b) eq_refl)
    as (-> & H5a & H5b).
  destruct (join2_plain_step _ network (conj H5a H5b) Hn)
    as (-> & H6a & H6b).
  destruct (join2_plain_step _ window (conj H6a H6b) Hw)
    as (-> & H7a & H7b).
  rewrite join2_plain; try assumption.
  - rewrite !append_assoc. reflexivity.
  - destruct date as [|c date]; [reflexivity|].
    cbn [append str.startswith] in *.
    destruct (Ascii.eqb "/" c); [discriminate Hd|reflexivity].
Qed.


Lemma startswith_sep_append (s t : string) :
  str.startswith (s ++ t) "/" = str.startswith s "/" || (s =? "") && str.startswith t "/".
Proof.
  destruct s as [|c s]; cbn [append str.startswith String.eqb].
  - reflexivity.
  - cbn [andb]. now rewrite orb_false_r.
Qed.



(** Parent-directory sequences and separators in the window or the date go
    into the path untouched, and an absolute window discards the log root. *)
Example GetLogPath_traversal :
  IrcLogPathBuilder.GetLogPath
    "/home/alice" (IrcLogPathBuilder.__init__ "libera" "alice")
    "../../bob" "x/../y"
  = "/home/alice/.znc/users/alice/moddata/log/libera/../../bob/x/../y.log"
  /\ IrcLogPathBuilder.GetLogPath
       "/home/alice" (IrcLogPathBuilder.__init__ "libera" "alice")
       "/etc" "passwd"
     = "/etc/passwd.log".
Proof.
  split; reflexivity.
Qed.

(** ** Dispatch *)

Lemma Dispatch_no_token (d : LogViewerCommandDispatcher.t) (env : Env)
      (line : string) :
  str.split line = [] ->
  Dispatch d env line = ([], Raised (IndexError "list index out of range")).
Proof.
  intros Hs. unfold Dispatch. rewrite Hs. reflexivity.
Qed.

(** Loading the module as shipped succeeds and leaves the four commands
    under their lower-cased names, in the order of registration. *)
Lemma OnLoad_succeeds {rt : PyRuntime} (self : logviewer.t)
      (args message : string) :
  logviewer.OnLoad self args message
  = (logviewer.mk
       (Some (LogViewerCommandDispatcher.mk
                [("logcat", LogCatCommand); ("loggrep", LogGrepCommand);
                 ("logdates", LogDatesCommand);
                 ("logwindows", LogWindowsCommand)])),
     message, true).
Proof.
  reflexivity.
Qed.

Lemma loaded_module_eq {rt : PyRuntime} :
  loaded_module
  = logviewer.mk
      (Some (LogViewerCommandDispatcher.mk
               [("logcat", LogCatCommand); ("loggrep", LogGrepCommand);
                ("logdates", LogDatesCommand);
                ("logwindows", LogWindowsCommand)])).
Proof.
  reflexivity.
Qed.

Lemma split_all_space (line : string) :
  str.all_space line = true -> str.split line = [].
Proof.
  induction line as [|c line IH]; simpl; intros H.
  - reflexivity.
  - apply andb_prop in H. destruct H as [Hc Hl].
    rewrite Hc. now apply IH.
Qed.

(** C1.  On an empty or whitespace-only line [Dispatch] does raise: the line
    has no token, [args[0]] is an [IndexError], nothing is printed, and
    [OnModCommand] passes the exception on instead of returning [True]. *)
Theorem blank_line_raises {rt : PyRuntime} (env : Env) (line : string)
        (Hblank : str.all_space line = true) :
  logviewer.OnModCommand loaded_module env line
  = ([], Raised (IndexError "list index out of range")).
Proof.
  rewrite loaded_module_eq. unfold logviewer.OnModCommand.
  cbn [logviewer.__cmdDispatcher].
  rewrite Dispatch_no_token by now apply split_all_space.
  reflexivity.
Qed.

Lemma blank_line_raises_witness :
  str.all_space "   " = true
  /\ logviewer.OnModCommand loaded_module demo_env "   "
     = ([], Raised (IndexError "list index out of range"))
  /\ logviewer.OnModCommand loaded_module demo_env ""
     = ([], Raised (IndexError "list index out of range")).
Proof.
  split; [reflexivity|].
  split; apply blank_line_raises; reflexivity.
Defined.

(** C10.  A line made of a registered verb alone reaches [Perform] with
    [None]; [Perform] turns [None] into the empty list before calling
    [_DoPerform]; and for the three shipped commands that take arguments the
    result is the two usage lines and a normal return. *)
Theorem bare_verb_prints_usage {rt : PyRuntime}
        (d : LogViewerCommandDispatcher.t) (cmd : AbstractLogViewerCommand)
        (env : Env) (line verb : string)
        (Hline : str.split line = [verb])
        (Hreg : dict_get (__commands d) (str.lower verb) = Some cmd) :
  cmdArgs (str.split line) = None
  /\ Dispatch d env line = Perform cmd env None
  /\ Perform cmd env None = _DoPerform cmd (attrs cmd) env []
  /\ (In cmd [LogCatCommand; LogGrepCommand; LogDatesCommand] ->
      Dispatch d env line
      = ([GetName cmd ++ " " ++ GetArgumentString cmd; GetDescription cmd],
         Returned tt)).
Proof.
  assert (HD : Dispatch d env line = Perform cmd env None).
  { unfold Dispatch. rewrite Hline, Hreg. reflexivity. }
  repeat split.
  - rewrite Hline. reflexivity.
  - exact HD.
  - rewrite HD. intros Hin. simpl in Hin.
    destruct Hin as [<-|[<-|[<-|[]]]]; reflexivity.
Qed.

Lemma bare_verb_prints_usage_witness :
  Dispatch (LogViewerCommandDispatcher.mk
              [("logcat", LogCatCommand); ("loggrep", LogGrepCommand);
               ("logdates", LogDatesCommand);
               ("logwindows", LogWindowsCommand)])
           demo_env "LOGGREP"
  = (["LogGrep <window> <date> <regex>";
      "Grep log file for window and date (current network) with regex."],
     Returned tt).
Proof.
  refine (proj2 (proj2 (proj2
    (bare_verb_prints_usage
       (LogViewerCommandDispatcher.mk
          [("logcat", LogCatCommand); ("loggrep", LogGrepCommand);
           ("logdates", LogDatesCommand);
           ("logwindows", LogWindowsCommand)])
       LogGrepCommand demo_env "LOGGREP" "LOGGREP" _ _))) _).
  - reflexivity.
  - reflexivity.
  - simpl. auto.
Defined.

(** ** Case of the verb *)

Lemma cmdArgs_tail (t1 t2 : string) (rest : list string) :
  cmdArgs (t1 :: rest) = cmdArgs (t2 :: rest).
Proof.
  reflexivity.
Qed.

(** The claim of C8 fails for a verb that is not registered: the reply
    quotes the token as it was typed. *)
Lemma case_variant_unknown_verb_differs :
  str.split "foo x" = ["foo"; "x"]
  /\ str.split "FOO x" = ["FOO"; "x"]
  /\ str.lower "foo" = str.lower "FOO"
  /\ Dispatch (LogViewerCommandDispatcher.mk
                [("logcat", LogCatCommand); ("loggrep", LogGrepCommand);
                 ("logdates", LogDatesCommand);
                 ("logwindows", LogWindowsCommand)])
             demo_env "foo x"
     <> Dispatch (LogViewerCommandDispatcher.mk
                    [("logcat", LogCatCommand); ("loggrep", LogGrepCommand);
                     ("logdates", LogDatesCommand);
                     ("logwindows", LogWindowsCommand)])
                 demo_env "FOO x".
Proof.
  repeat split. discriminate.
Qed.

(** C8, amended.  Two lines of ASCII characters whose token lists differ
    only by the case of the first token, when that token lower-cased is a
    registered verb or "help", are dispatched alike: same handler, same
    arguments, same output.  Otherwise each line gets the not-found reply
    quoting its own first token. *)
Theorem Dispatch_case_insensitive {rt : PyRuntime}
        (d : LogViewerCommandDispatcher.t) (env : Env)
        (line1 line2 t1 t2 : string) (rest : list string)
        (Hascii1 : str.isascii line1 = true)
        (Hascii2 : str.isascii line2 = true)
        (H1 : str.split line1 = t1 :: rest)
        (H2 : str.split line2 = t2 :: rest)
        (Hcase : str.lower t1 = str.lower t2) :
  (forall cmd, dict_get (__commands d) (str.lower t1) = Some cmd ->
               Dispatch d env line1 = Perform cmd env (cmdArgs (t1 :: rest))
               /\ Dispatch d env line2 = Perform cmd env (cmdArgs (t1 :: rest)))
  /\ (dict_in (str.lower t1) (__commands d) = true \/ str.lower t1 = "help" ->
      Dispatch d env line1 = Dispatch d env line2)
  /\ (dict_in (str.lower t1) (__commands d) = false ->
      str.lower t1 <> "help" ->
      Dispatch d env line1
      = (["Command not found: " ++ t1;
          "Use Help for list of available commands"], Returned tt)
      /\ Dispatch d env line2
         = (["Command not found: " ++ t2;
             "Use Help for list of available commands"], Returned tt)).
Proof.
  unfold Dispatch, dict_in. rewrite H1, H2, <- Hcase.
  rewrite (cmdArgs_tail t2 t1).
  repeat split.
  - rewrite H; reflexivity.
  - rewrite H; reflexivity.
  - intros [Hin | Hhelp].
    + destruct (dict_get (__commands d) (str.lower t1)); [reflexivity|discriminate].
    + destruct (dict_get (__commands d) (str.lower t1)); [reflexivity|].
      rewrite Hhelp. reflexivity.
  - destruct (dict_get (__commands d) (str.lower t1)); [discriminate|].
    apply String.eqb_neq in H0. rewrite H0. reflexivity.
  - destruct (dict_get (__commands d) (str.lower t1)); [discriminate|].
    apply String.eqb_neq in H0. rewrite H0. reflexivity.
Qed.

Lemma Dispatch_case_insensitive_witness :
  Dispatch (LogViewerCommandDispatcher.mk
              [("logcat", LogCatCommand); ("loggrep", LogGrepCommand);
               ("logdates", LogDatesCommand);
               ("logwindows", LogWindowsCommand)])
           demo_env "logcat #chan 2023-01-01"
  = Dispatch (LogViewerCommandDispatcher.mk
                [("logcat", LogCatCommand); ("loggrep", LogGrepCommand);
                 ("logdates", LogDatesCommand);
                 ("logwindows", LogWindowsCommand)])
             demo_env "LOGCAT  #chan 2023-01-01 ".
Proof.
  refine (proj1 (proj2
    (Dispatch_case_insensitive
       (LogViewerCommandDispatcher.mk
          [("logcat", LogCatCommand); ("loggrep", LogGrepCommand);
           ("logdates", LogDatesCommand);
           ("logwindows", LogWindowsCommand)])
       demo_env "logcat #chan 2023-01-01" "LOGCAT  #chan 2023-01-01 "
       "logcat" "LOGCAT" ["#chan"; "2023-01-01"] _ _ _ _ _)) _).
  - reflexivity.
  - reflexivity.
  - reflexivity.
  - reflexivity.
  - reflexivity.
  - left. reflexivity.
Defined.

(** ** Registration *)

Lemma dict_in_set_same (d : dict) (k : string) (v : AbstractLogViewerCommand) :
  dict_in k (dict_set d k v) = true.
Proof.
  unfold dict_in.
  induction d as [|[k' v'] d IH]; simpl.
  - now rewrite String.eqb_refl.
  - destruct (k' =? k) eqn:E; simpl; rewrite E; auto.
Qed.

Lemma dict_in_set_mono (d : dict) (k k0 : string)
      (v : AbstractLogViewerCommand) :
  dict_in k0 d = true -> dict_in k0 (dict_set d k v) = true.
Proof.
  unfold dict_in.
  induction d as [|[k' v'] d IH]; simpl; intros H.
  - discriminate.
  - destruct (k' =? k) eqn:E; simpl; destruct (k' =? k0) eqn:E0; auto.
Qed.

(** Registering a second handler under a name that differs by case only
    raises. *)
Lemma AddCommand_twice_raises (d d' : LogViewerCommandDispatcher.t)
      (c1 c2 : AbstractLogViewerCommand) :
  str.lower (GetName c1) = str.lower (GetName c2) ->
  AddCommand d c1 = Returned d' ->
  AddCommand d' c2 = Raised (NameError "command already registered").
Proof.
  unfold AddCommand. intros Hk H1.
  destruct (dict_in (str.lower (GetName c1)) (__commands d)); [discriminate|].
  injection H1 as <-. simpl. rewrite <- Hk, dict_in_set_same. reflexivity.
Qed.

Lemma not_NoDup_cons (a : string) (l : list string) :
  ~ NoDup (a :: l) -> In a l \/ ~ NoDup l.
Proof.
  intros H. destruct (in_dec string_dec a l) as [Hin|Hnin]; [now left|].
  right. intros Hnd. apply H. now constructor.
Qed.

Lemma AddCommands_stops (cmds : list AbstractLogViewerCommand) :
  forall d : LogViewerCommandDispatcher.t,
    (exists c, In c cmds /\ dict_in (str.lower (GetName c)) (__commands d) = true)
    \/ ~ NoDup (map (fun c => str.lower (GetName c)) cmds) ->
    exists d', logviewer.AddCommands d cmds
               = (d', Some (NameError "command already registered")).
Proof.
  induction cmds as [|c cs IH]; intros d H.
  - exfalso. destruct H as [[c [[] _]]|H]. apply H. constructor.
  - simpl. unfold AddCommand.
    destruct (dict_in (str.lower (GetName c)) (__commands d)) eqn:Hc.
    + now exists d.
    + apply IH. simpl.
      destruct H as [[c0 [[<-|Hin] Hc0]]|Hdup].
      * congruence.
      * left. exists c0. split; [assumption|].
        now apply dict_in_set_mono.
      * apply not_NoDup_cons in Hdup. destruct Hdup as [Hin|Hdup].
        -- left. apply in_map_iff in Hin. destruct Hin as [c0 [Hk Hin]].
           exists c0. split; [assumption|].
           rewrite Hk. apply dict_in_set_same.
        -- now right.
Qed.

(** C7.  When two of the handlers a module registers have names that are
    equal once lower-cased, one of the [AddCommand] calls raises
    [NameError], [OnLoad] returns [False] with [message.s] set to "Error: "
    followed by the text of the exception, and the host, which loads no
    module whose [OnLoad] failed, hands it no command line. *)
Theorem duplicate_verb_aborts_load
        (cmds : list AbstractLogViewerCommand) (self : logviewer.t)
        (args message : string)
        (Hdup : ~ NoDup (map (fun c => str.lower (GetName c)) cmds)) :
  exists d : LogViewerCommandDispatcher.t,
    logviewer.AddCommands LogViewerCommandDispatcher.__init__ cmds
    = (d, Some (NameError "command already registered"))
    /\ logviewer.OnLoad_registering cmds self args message
       = (logviewer.mk (Some d),
          "Error: " ++ exn_str (NameError "command already registered"),
          false)
    /\ forall (env : Env) (line : string),
         logviewer.host_command
           (logviewer.OnLoad_registering cmds self args message) env line
         = None.
Proof.
  destruct (AddCommands_stops cmds LogViewerCommandDispatcher.__init__
                              (or_intror Hdup)) as [d Hd].
  exists d. unfold logviewer.OnLoad_registering. rewrite Hd.
  repeat split.
Qed.

Lemma duplicate_verb_aborts_load_witness :
  exists d : LogViewerCommandDispatcher.t,
    logviewer.AddCommands
      LogViewerCommandDispatcher.__init__
      [LogCatCommand; LogDatesCommand;
       mkCommand (mkAttrs "LOGCAT" "" "") Abstract_DoPerform;
       LogWindowsCommand]
    = (d, Some (NameError "command already registered"))
    /\ logviewer.OnLoad_registering
         [LogCatCommand; LogDatesCommand;
          mkCommand (mkAttrs "LOGCAT" "" "") Abstract_DoPerform;
          LogWindowsCommand]
         logviewer.unloaded "" ""
       = (logviewer.mk (Some d),
          "Error: " ++ exn_str (NameError "command already registered"),
          false)
    /\ forall (env : Env) (line : string),
         logviewer.host_command
           (logviewer.OnLoad_registering
              [LogCatCommand; LogDatesCommand;
               mkCommand (mkAttrs "LOGCAT" "" "") Abstract_DoPerform;
               LogWindowsCommand]
              logviewer.unloaded "" "") env line
         = None.
Proof.
  apply duplicate_verb_aborts_load.
  intros H. inversion H as [|x l Hnin _]. apply Hnin. simpl. auto.
Defined.

(** ** Running the monad *)

Lemma bind_ret {A B : Type} (a : A) (k : A -> M B) : bind (ret a) k = k a.
Proof.
  unfold bind, ret. now destruct (k a).
Qed.

Lemma bind_PutModule {B : Type} (x : string) (k : unit -> M B) :
  bind (PutModule x) k = (x :: fst (k tt), snd (k tt)).
Proof.
  unfold bind, PutModule. now destruct (k tt).
Qed.

Lemma for_each_Print (xs : list string) :
  for_each xs Print = (xs, Returned tt).
Proof.
  induction xs as [|x xs IH]; cbn [for_each].
  - reflexivity.
  - unfold Print at 1. rewrite bind_PutModule, IH. reflexivity.
Qed.

Lemma for_each_Print_if (keep : string -> bool) (xs : list string) :
  for_each xs (fun line => if keep line then Print line else ret tt)
  = (filter keep xs, Returned tt).
Proof.
  induction xs as [|x xs IH]; cbn [for_each filter].
  - reflexivity.
  - destruct (keep x).
    + unfold Print at 1. rewrite bind_PutModule, IH. reflexivity.
    + rewrite bind_ret. exact IH.
Qed.

Lemma file_at_isfile (root : node) (path : string) (f : file) :
  file_at root path = Some f -> isfile root path = true.
Proof.
  unfold file_at, isfile.
  destruct (resolve root path) as [[g|es]|]; now intros.
Qed.

Lemma open_readable (root : node) (path : string) (f : file) :
  file_at root path = Some f ->
  f_fault f = None ->
  textio.open root path = ret (textio.mkStream (textio.readlines f) None).
Proof.
  unfold file_at, textio.open. intros Hf Hok.
  destruct (resolve root path) as [[g|es]|]; try discriminate.
  injection Hf as ->. now rewrite Hok.
Qed.

Lemma bind_raise {A B : Type} (e : exn) (k : A -> M B) :
  bind (raise e) k = raise e.
Proof.
  reflexivity.
Qed.

Lemma for_each_then_raise (keep : string -> bool) (xs : list string)
      (e : exn) :
  try_except
    (for_each xs (fun line => if keep line then Print line else ret tt) ;;
     raise e)
    (fun e => PrintErr (exn_str e))
  = (List.app (filter keep xs) ["ERROR: " ++ exn_str e], Returned tt).
Proof.
  rewrite for_each_Print_if. cbn. now rewrite app_nil_r.
Qed.

(** What [LogGrep] does with the lines of an existing file once the pattern
    is compiled, faults included. *)
Lemma scan_file (keep : string -> bool) (root : node) (path : string)
      (f : file) :
  file_at root path = Some f ->
  try_except
    (bind (textio.open root path)
          (fun s =>
             textio.iterate
               s (fun line => if keep line then Print line else ret tt)))
    (fun e => PrintErr (exn_str e))
  = (List.app (filter keep (delivered_lines f)) (fault_report f),
     Returned tt).
Proof.
  unfold file_at, textio.open, delivered_lines, fault_report. intros Hf.
  destruct (resolve root path) as [[g|es]|]; try discriminate.
  injection Hf as ->.
  destruct (f_fault f) as [[[|n] msg]|].
  - reflexivity.
  - rewrite bind_ret. unfold textio.iterate.
    cbn [textio.delivered textio.broken].
    apply (for_each_then_raise keep _ (OSError msg)).
  - rewrite bind_ret. unfold textio.iterate.
    cbn [textio.delivered textio.broken].
    rewrite for_each_Print_if. cbn. now rewrite !app_nil_r.
Qed.

Lemma filter_all {A : Type} (l : list A) : filter (fun _ => true) l = l.
Proof.
  induction l as [|a l IH]; cbn; now rewrite ?IH.
Qed.

(** ** Missing log files *)

(** The claim of C3 fails as worded: the line that is printed starts with
    "ERROR: ". *)
Lemma missing_log_line_has_prefix :
  IrcLog.Exists (env_fs demo_env)
                (IrcLog.__init__ "/home/alice" "libera" "alice"
                                 "#chan" "2023-03-03") = false
  /\ fst (LogCat__showLog demo_env "#chan" "2023-03-03")
     <> ["No such log file for #chan on 2023-03-03 (/home/alice/.znc/users/alice/moddata/log/libera/#chan/2023-03-03.log)"]
  /\ fst (LogGrep__grepLog demo_env "#chan" "2023-03-03" "foo")
     <> ["No such log file for #chan on 2023-03-03 (/home/alice/.znc/users/alice/moddata/log/libera/#chan/2023-03-03.log)"].
Proof.
  repeat split; vm_compute; discriminate.
Qed.

(** C3, amended.  When the resolved path is not a regular file, [LogCat] and
    [LogGrep] print one line and nothing else: "ERROR: No such log file for
    {window} on {date} ({path})", with the path [GetLogPath] gives; and they
    return normally. *)
Theorem missing_log_reported {rt : PyRuntime} (env : Env)
        (window date : string)
        (Hmissing :
           IrcLog.Exists (env_fs env)
                         (IrcLog.__init__ (env_home env) (env_network env)
                                          (env_user env) window date)
           = false) :
  let path :=
    IrcLogPathBuilder.GetLogPath
      (env_home env)
      (IrcLogPathBuilder.__init__ (env_network env) (env_user env))
      window date in
  let line := "ERROR: No such log file for " ++ window ++ " on " ++ date
                ++ " (" ++ path ++ ")" in
  LogCat__showLog env window date = ([line], Returned tt)
  /\ _DoPerform LogCatCommand (attrs LogCatCommand) env [window; date]
     = ([line], Returned tt)
  /\ forall regex : string,
       LogGrep__grepLog env window date regex = ([line], Returned tt)
       /\ _DoPerform LogGrepCommand (attrs LogGrepCommand) env
                     [window; date; regex]
          = ([line], Returned tt).
Proof.
  cbv zeta. cbn [_DoPerform LogCatCommand LogGrepCommand].
  unfold LogCat_DoPerform, LogGrep_DoPerform, LogCat__showLog,
    LogGrep__grepLog.
  rewrite Hmissing. repeat split.
Qed.

Lemma missing_log_reported_witness :
  LogCat__showLog demo_env "#chan" "2023-03-03"
  = (["ERROR: No such log file for #chan on 2023-03-03 (/home/alice/.znc/users/alice/moddata/log/libera/#chan/2023-03-03.log)"],
     Returned tt).
Proof.
  refine (proj1 (missing_log_reported demo_env "#chan" "2023-03-03" _)).
  reflexivity.
Defined.

(** ** Reading a log *)

Lemma unlines_lines (s : string) : textio.unlines (textio.lines s) = s.
Proof.
  induction s as [|c s IH]; cbn [textio.lines].
  - reflexivity.
  - destruct (Ascii.eqb c textio.LF).
    + cbn. now rewrite <- IH at 2.
    + destruct (textio.lines s) as [|l ls]; cbn in *; now rewrite <- IH.
Qed.

Lemma translate_newlines_no_CR (s : string) :
  str.contains textio.CR s = false -> textio.translate_newlines s = s.
Proof.
  induction s as [|c s IH]; cbn [textio.translate_newlines str.contains].
  - reflexivity.
  - intros H. apply orb_false_elim in H. destruct H as [Hc Hs].
    rewrite Hc. now rewrite IH.
Qed.

Lemma decode_well_formed_bounded (n : nat) :
  forall bs : list byte,
    List.length bs <= n ->
    textio.well_formed bs = true ->
    textio.decode bs = string_of_list_byte bs.
Proof.
  unfold string_of_list_byte.
  induction n as [|n IH]; intros bs Hlen Hwf;
    (destruct bs as [|b0 t0]; [reflexivity|]); cbn [List.length] in Hlen;
    [lia|].
  cbn [textio.decode textio.well_formed] in *.
  destruct (textio.classify b0) as [|more lo hi|]; [| |discriminate].
  - cbn [map string_of_list_ascii]. f_equal. apply IH; [lia|assumption].
  - destruct t0 as [|b1 t1]; [discriminate|].
    apply andb_prop in Hwf. destruct Hwf as [H1 Hwf]. rewrite H1.
    cbn [negb List.length] in *.
    destruct (more =? 1)%nat.
    { cbn. do 2 f_equal. apply IH; [lia|assumption]. }
    destruct t1 as [|b2 t2]; [discriminate|].
    apply andb_prop in Hwf. destruct Hwf as [H2 Hwf]. rewrite H2.
    cbn [negb List.length] in *.
    destruct (more =? 2)%nat.
    { cbn. do 3 f_equal. apply IH; [lia|assumption]. }
    destruct t2 as [|b3 t3]; [discriminate|].
    apply andb_prop in Hwf. destruct Hwf as [H3 Hwf]. rewrite H3.
    cbn [negb List.length] in *.
    cbn. do 4 f_equal. apply IH; [lia|assumption].
Qed.

(** Decoding keeps well-formed UTF-8 as it is. *)
Lemma decode_well_formed (bs : list byte) :
  textio.well_formed bs = true -> textio.decode bs = string_of_list_byte bs.
Proof.
  apply (decode_well_formed_bounded (List.length bs)). lia.
Qed.

Lemma no_CR_bytes (bs : list byte) :
  forallb (fun b => negb (Ascii.eqb (ascii_of_byte b) textio.CR)) bs = true ->
  str.contains textio.CR (string_of_list_byte bs) = false.
Proof.
  unfold string_of_list_byte.
  induction bs as [|b bs IH]; cbn [forallb map string_of_list_ascii
                                   str.contains]; intros H.
  - reflexivity.
  - apply andb_prop in H. destruct H as [Hb Hbs].
    apply negb_true_iff in Hb. now rewrite Hb, IH.
Qed.

Lemma readlines_plain_text (f : file) :
  textio.plain_text (f_data f) = true ->
  textio.unlines (textio.readlines f) = string_of_list_byte (f_data f).
Proof.
  unfold textio.plain_text, textio.readlines. intros H.
  apply andb_prop in H. destruct H as [Hwf Hcr].
  rewrite unlines_lines, (decode_well_formed _ Hwf).
  apply translate_newlines_no_CR. now apply no_CR_bytes.
Qed.

(** Decoding on ill-formed input: one U+FFFD for each maximal ill-formed
    prefix. *)
Example decode_replaces :
  textio.decode [x61; xff; x62]
  = String "a" (textio.REPLACEMENT ++ "b")
  /\ textio.decode [xe2; x82; x41] = textio.REPLACEMENT ++ "A"
  /\ textio.decode [xe0; x80]
     = textio.REPLACEMENT ++ textio.REPLACEMENT
  /\ textio.decode [xf0; x9f; x98; x80]
     = string_of_list_byte [xf0; x9f; x98; x80]
  /\ textio.lines
       (textio.translate_newlines
          (String "a" (String textio.CR (String textio.LF
             (String "b" (String textio.CR (String "c" "")))))))
     = ["a" ++ NL; "b" ++ NL; "c"].
Proof.
  repeat split.
Qed.

(** The claim of C2 fails as worded: the lines of the file come after a
    header line; a file that exists but cannot be read yields the header and
    an error line instead of its content; and the lines of a file written
    with CR LF line ends are printed with LF ends. *)
Lemma showLog_more_than_file_lines :
  file_at (env_fs demo_env)
          "/home/alice/.znc/users/alice/moddata/log/libera/#chan/2023-01-01.log"
  = Some jan1
  /\ fst (LogCat__showLog demo_env "#chan" "2023-01-01")
     <> textio.readlines jan1
  /\ file_at (env_fs demo_env)
             "/home/alice/.znc/users/alice/moddata/log/libera/#chan/locked.log"
     = Some locked
  /\ textio.readlines locked = ["foo secret" ++ NL]
  /\ LogCat__showLog demo_env "#chan" "locked"
     = (["Content of /home/alice/.znc/users/alice/moddata/log/libera/#chan/locked.log:";
         "ERROR: [Errno 13] Permission denied: '/home/alice/.znc/users/alice/moddata/log/libera/#chan/locked.log'"],
        Returned tt)
  /\ file_at (env_fs crlf_env) "/h/.znc/users/u/moddata/log/n/w/d.log"
     = Some crlf
  /\ textio.lines (textio.decode (f_data crlf))
     = ["a" ++ String textio.CR NL; "b" ++ String textio.CR NL]
  /\ LogCat__showLog crlf_env "w" "d"
     = (["Content of /h/.znc/users/u/moddata/log/n/w/d.log:";
         "a" ++ NL; "b" ++ NL], Returned tt).
Proof.
  repeat split; vm_compute; discriminate.
Qed.

(** C2, amended.  When the resolved path is a regular file, [LogCat] prints
    the header "Content of {path}:" and then the lines of the file in
    order, as text-mode reading delivers them: all of them when no I/O
    error occurs, and otherwise those read before the error, followed by
    one line "ERROR: " with the text of the error and by nothing more.  The
    lines are those of the text decoded as UTF-8 with replacement and with
    CR LF and CR read as LF; they spell that text out, and for a file of
    well-formed UTF-8 without CR they spell the bytes of the file. *)
Theorem showLog_prints_file {rt : PyRuntime} (env : Env)
        (window date : string) (f : file) :
  let path :=
    IrcLogPathBuilder.GetLogPath
      (env_home env)
      (IrcLogPathBuilder.__init__ (env_network env) (env_user env))
      window date in
  file_at (env_fs env) path = Some f ->
  (f_fault f = None ->
   LogCat__showLog env window date
   = (("Content of " ++ path ++ ":") :: textio.readlines f, Returned tt))
  /\ (forall (n : nat) (msg : string),
         f_fault f = Some (n, msg) ->
         LogCat__showLog env window date
         = (("Content of " ++ path ++ ":")
              :: List.app (firstn n (textio.readlines f)) ["ERROR: " ++ msg],
            Returned tt))
  /\ textio.unlines (textio.readlines f)
     = textio.translate_newlines (textio.decode (f_data f))
  /\ (textio.plain_text (f_data f) = true ->
      textio.unlines (textio.readlines f) = string_of_list_byte (f_data f)).
Proof.
  intros path Hf.
  assert (LogCat__showLog env window date
          = (("Content of " ++ path ++ ":")
               :: List.app (delivered_lines f) (fault_report f),
             Returned tt)) as Hall.
  { unfold LogCat__showLog, IrcLog.Exists, IrcLog.__enter__.
    change (IrcLog.GetPath
              (IrcLog.__init__ (env_home env) (env_network env)
                               (env_user env) window date)) with path.
    rewrite (file_at_isfile _ _ _ Hf). cbn [negb].
    pose proof (scan_file (fun _ => true) _ _ _ Hf) as Hscan.
    rewrite filter_all in Hscan.
    change (fun line : string => if true then Print line else ret tt)
      with (fun line : string => Print line) in Hscan.
    rewrite Hscan. unfold Print at 1. now rewrite bind_PutModule. }
  split; [|split; [|split]].
  - intros Hok. rewrite Hall. unfold delivered_lines, fault_report.
    rewrite Hok. now rewrite app_nil_r.
  - intros n msg Hfault. rewrite Hall. unfold delivered_lines, fault_report.
    now rewrite Hfault.
  - apply unlines_lines.
  - apply readlines_plain_text.
Qed.

Lemma showLog_prints_file_witness :
  LogCat__showLog demo_env "#chan" "2023-01-01"
  = (["Content of /home/alice/.znc/users/alice/moddata/log/libera/#chan/2023-01-01.log:";
      "foo bar" ++ NL; "baz" ++ NL], Returned tt)
  /\ LogCat__showLog flaky_env "w" "d"
     = (["Content of /h/.znc/users/u/moddata/log/n/w/d.log:";
         "one" ++ NL; "two" ++ NL;
         "ERROR: [Errno 5] Input/output error"], Returned tt).
Proof.
  split.
  - refine (proj1 (showLog_prints_file demo_env "#chan" "2023-01-01"
                                       jan1 _) _); reflexivity.
  - refine (proj1 (proj2 (showLog_prints_file flaky_env "w" "d" flaky _))
                  2 "[Errno 5] Input/output error" _); reflexivity.
Defined.

(** ** Searching a log *)

(** The claim of C4 fails as worded: the matching lines come after a header
    line, and a file that exists but cannot be read yields the header and an
    error line although one of its lines matches. *)
Lemma grepLog_more_than_matching_lines :
  file_at (env_fs demo_env)
          "/home/alice/.znc/users/alice/moddata/log/libera/#chan/2023-01-01.log"
  = Some jan1
  /\ filter (substring_of "foo") (textio.readlines jan1) = ["foo bar" ++ NL]
  /\ fst (LogGrep__grepLog demo_env "#chan" "2023-01-01" "foo")
     <> ["foo bar" ++ NL]
  /\ file_at (env_fs demo_env)
             "/home/alice/.znc/users/alice/moddata/log/libera/#chan/locked.log"
     = Some locked
  /\ filter (substring_of "foo") (textio.readlines locked)
     = ["foo secret" ++ NL]
  /\ LogGrep__grepLog demo_env "#chan" "locked" "foo"
     = (["Content of /home/alice/.znc/users/alice/moddata/log/libera/#chan/locked.log matching foo:";
         "ERROR: [Errno 13] Permission denied: '/home/alice/.znc/users/alice/moddata/log/libera/#chan/locked.log'"],
        Returned tt).
Proof.
  repeat split; vm_compute; discriminate.
Qed.

(** C4, amended.  When the resolved path is a regular file, [LogGrep] first
    prints the header "Content of {path} matching {regex}:".  If the
    pattern compiles and the file is read without an I/O error, the lines
    that follow are exactly the lines of the file in which the pattern is
    found by [search], in file order.  If the pattern does not compile, the
    only line that follows is "ERROR: " with the text of the error, and no
    line of the file is printed. *)
Theorem grepLog_prints_matches {rt : PyRuntime} (env : Env)
        (window date regex : string) (f : file) :
  let path :=
    IrcLogPathBuilder.GetLogPath
      (env_home env)
      (IrcLogPathBuilder.__init__ (env_network env) (env_user env))
      window date in
  let header := "Content of " ++ path ++ " matching " ++ regex ++ ":" in
  file_at (env_fs env) path = Some f ->
  (forall search : string -> bool,
      re_compile regex = inr search ->
      f_fault f = None ->
      LogGrep__grepLog env window date regex
      = (header :: filter search (textio.readlines f), Returned tt))
  /\ (forall msg : string,
         re_compile regex = inl msg ->
         LogGrep__grepLog env window date regex
         = ([header; "ERROR: " ++ msg], Returned tt)).
Proof.
  intros path header Hf.
  unfold LogGrep__grepLog, IrcLog.Exists, IrcLog.__enter__.
  change (IrcLog.GetPath
            (IrcLog.__init__ (env_home env) (env_network env)
                             (env_user env) window date)) with path.
  rewrite (file_at_isfile _ _ _ Hf). cbn [negb].
  split.
  - intros search Hre Hok. rewrite Hre, (open_readable _ _ _ Hf Hok).
    rewrite bind_ret. unfold textio.iterate.
    cbn [textio.delivered textio.broken].
    rewrite for_each_Print_if. unfold Print at 1. rewrite bind_PutModule.
    unfold bind, ret, try_except. cbn [fst snd].
    rewrite app_nil_r. reflexivity.
  - intros msg Hre. rewrite Hre. reflexivity.
Qed.

Lemma grepLog_prints_matches_witness :
  LogGrep__grepLog demo_env "#chan" "2023-01-01" "foo"
  = (["Content of /home/alice/.znc/users/alice/moddata/log/libera/#chan/2023-01-01.log matching foo:";
      "foo bar" ++ NL], Returned tt)
  /\ LogGrep__grepLog demo_env "#chan" "2023-01-01" "("
     = (["Content of /home/alice/.znc/users/alice/moddata/log/libera/#chan/2023-01-01.log matching (:";
         "ERROR: missing ), unterminated subpattern at position 0"],
        Returned tt).
Proof.
  split.
  - refine (proj1 (grepLog_prints_matches demo_env "#chan" "2023-01-01"
                                          "foo" jan1 _)
                  (substring_of "foo") _ _); reflexivity.
  - refine (proj2 (grepLog_prints_matches demo_env "#chan" "2023-01-01"
                                          "(" jan1 _)
                  "missing ), unterminated subpattern at position 0" _);
      reflexivity.
Defined.

(** ** Sorting *)

Lemma insert_sorted_perm (x : string) (l : list string) :
  Permutation (x :: l) (insert_sorted x l).
Proof.
  induction l as [|y l IH]; cbn [insert_sorted].
  - apply Permutation_refl.
  - destruct (String.leb x y).
    + apply Permutation_refl.
    + eapply perm_trans; [apply perm_swap|]. now apply perm_skip.
Qed.

Lemma insert_sorted_hd (x a : string) (l : list string) :
  leb_rel a x -> HdRel leb_rel a l -> HdRel leb_rel a (insert_sorted x l).
Proof.
  intros Hax Hl. destruct l as [|y l]; cbn [insert_sorted].
  - now constructor.
  - destruct (String.leb x y); constructor; [assumption|].
    now inversion Hl.
Qed.

Lemma insert_sorted_sorted (x : string) (l : list string) :
  Sorted leb_rel l -> Sorted leb_rel (insert_sorted x l).
Proof.
  induction 1 as [|y l Hs IH Hhd]; cbn [insert_sorted].
  - repeat constructor.
  - destruct (String.leb x y) eqn:E.
    + constructor; [now constructor|]. now constructor.
    + constructor; [assumption|].
      apply insert_sorted_hd; [|assumption].
      destruct (String.leb_total x y) as [H|H]; [congruence|exact H].
Qed.

(** [sorted] returns its argument rearranged in ascending order. *)
Lemma sorted_spec (l : list string) :
  Sorted leb_rel (sorted l) /\ Permutation l (sorted l).
Proof.
  induction l as [|x l [IHs IHp]]; cbn [sorted fold_right].
  - split; constructor.
  - split.
    + now apply insert_sorted_sorted.
    + eapply perm_trans; [apply perm_skip, IHp|]. apply insert_sorted_perm.
Qed.

(** ** Strings and paths *)

Lemma cut_append (p : string) :
  fst (posixpath.cut p) ++ snd (posixpath.cut p) = p.
Proof.
  induction p as [|c p IH]; cbn [posixpath.cut].
  - reflexivity.
  - destruct (posixpath.cut p) as [h t]. cbn [fst snd] in IH.
    destruct (h =? "") eqn:Eh.
    + apply String.eqb_eq in Eh. subst h. cbn in IH. subst t.
      destruct (Ascii.eqb c posixpath.sep); reflexivity.
    + cbn. now rewrite IH.
Qed.

Lemma rstrip_sep_prefix (s : string) :
  exists r, s = posixpath.rstrip_sep s ++ r.
Proof.
  induction s as [|c s [r IH]].
  - now exists "".
  - cbn [posixpath.rstrip_sep].
    destruct (posixpath.all_sep (String c s)).
    + now exists (String c s).
    + exists r. cbn. now rewrite <- IH.
Qed.

(** The directory part of a path is a prefix of it. *)
Lemma split_dirname_prefix (p : string) :
  exists r, p = fst (posixpath.split p) ++ r.
Proof.
  unfold posixpath.split. pose proof (cut_append p) as Hc.
  destruct (posixpath.cut p) as [h t]. cbn [fst snd] in Hc.
  destruct (negb (h =? "") && negb (posixpath.all_sep h)); cbn [fst].
  - destruct (rstrip_sep_prefix h) as [r Hr].
    exists (r ++ t). rewrite <- append_assoc, <- Hr. now symmetry.
  - exists t. now symmetry.
Qed.

Lemma split_dirname_shorter (p : string) :
  fst (posixpath.split p) <> p ->
  String.length (fst (posixpath.split p)) < String.length p.
Proof.
  intros Hne. destruct (split_dirname_prefix p) as [r Hr].
  destruct r as [|c r].
  - rewrite append_nil_r in Hr. congruence.
  - rewrite Hr at 2. rewrite length_append. cbn. lia.
Qed.

(** [glob] always has fuel to spare: the directory part on which [_iglob]
    calls itself is shorter than the path. *)
Lemma _iglob_fuel {rt : PyRuntime} (root : node) (fuel : nat) :
  forall (pathname : string) (dironly : bool),
    String.length pathname < fuel ->
    glob._iglob fuel root pathname dironly <> None.
Proof.
  induction fuel as [|fuel IH]; intros pathname dironly Hlen; [lia|].
  cbn [glob._iglob].
  pose proof (split_dirname_shorter pathname) as Hsh.
  destruct (posixpath.split pathname) as [dirname basename].
  cbn [fst] in Hsh.
  destruct (negb (glob.has_magic pathname)).
  - destruct (negb (basename =? "")); discriminate.
  - destruct (dirname =? ""); [discriminate|].
    destruct (negb (dirname =? pathname) && glob.has_magic dirname) eqn:E.
    + apply andb_prop in E. destruct E as [E _].
      apply negb_true_iff, String.eqb_neq in E.
      specialize (IH dirname true ltac:(specialize (Hsh E); lia)).
      destruct (glob._iglob fuel root dirname true); [discriminate|].
      now elim IH.
    + discriminate.
Qed.

Lemma glob_total {rt : PyRuntime} (root : node) (pathname : string) :
  glob._iglob (S (String.length pathname)) root pathname false
  = Some (glob.glob root pathname).
Proof.
  unfold glob.glob.
  pose proof (_iglob_fuel root (S (String.length pathname)) pathname false
                          (Nat.lt_succ_diag_r _)) as H.
  destruct (glob._iglob (S (String.length pathname)) root pathname false);
    [reflexivity|now elim H].
Qed.

Lemma has_magic_append (a b : string) :
  glob.has_magic (a ++ b) = glob.has_magic a || glob.has_magic b.
Proof.
  induction a as [|c a IH]; cbn; [reflexivity|].
  now rewrite IH, orb_assoc.
Qed.

Lemma cut_no_sep (t : string) :
  str.contains posixpath.sep t = false -> posixpath.cut t = ("", t).
Proof.
  induction t as [|c t IH]; cbn [str.contains posixpath.cut]; intros H.
  - reflexivity.
  - apply orb_false_elim in H. destruct H as [Hc Ht].
    rewrite (IH Ht). cbn. now rewrite Hc.
Qed.

Lemma cut_child (h t : string) :
  str.contains posixpath.sep t = false ->
  posixpath.cut (h ++ "/" ++ t) = (h ++ "/", t).
Proof.
  intros Ht. cbn [append]. induction h as [|c h IH].
  - cbn [append posixpath.cut]. rewrite (cut_no_sep t Ht). reflexivity.
  - cbn [append posixpath.cut]. rewrite IH.
    destruct h; reflexivity.
Qed.

Lemma strip_trailing_sep (d : string) :
  d <> "" -> str.endswith d "/" = false ->
  posixpath.all_sep (d ++ "/") = false
  /\ posixpath.rstrip_sep (d ++ "/") = d.
Proof.
  induction d as [|c d IH]; intros Hne Hend; [congruence|].
  cbn [str.endswith] in Hend. apply orb_false_elim in Hend.
  destruct Hend as [Hc Hd].
  destruct d as [|c' d'].
  - cbn in Hc. cbn. unfold posixpath.sep.
    destruct (Ascii.eqb c "/"); [discriminate Hc|].
    split; reflexivity.
  - destruct (IH ltac:(discriminate) Hd) as [IH1 IH2].
    change (String c (String c' d') ++ "/")
      with (String c (String c' d' ++ "/")).
    set (x := String c' d' ++ "/") in *.
    cbn [posixpath.all_sep posixpath.rstrip_sep].
    rewrite IH1, andb_false_r, IH2. split; reflexivity.
Qed.

Lemma split_child (d t : string) :
  d <> "" -> str.endswith d "/" = false ->
  str.contains posixpath.sep t = false ->
  posixpath.split (d ++ "/" ++ t) = (d, t).
Proof.
  intros Hne Hend Ht. unfold posixpath.split. rewrite (cut_child d t Ht).
  destruct (strip_trailing_sep d Hne Hend) as [-> ->].
  destruct d; [congruence|reflexivity].
Qed.

Lemma no_sep_not_absolute (n : string) :
  str.contains posixpath.sep n = false -> str.startswith n "/" = false.
Proof.
  destruct n as [|c n]; cbn [str.contains str.startswith];
    [reflexivity|].
  intros H. apply orb_false_elim in H. destruct H as [Hc _].
  rewrite Ascii.eqb_sym. unfold posixpath.sep in Hc. now rewrite Hc.
Qed.

Lemma join2_child (d n : string) :
  d <> "" -> str.endswith d "/" = false ->
  str.contains posixpath.sep n = false ->
  posixpath.join d [n] = d ++ "/" ++ n.
Proof.
  intros Hne Hend Hn. cbn. unfold posixpath.join2.
  rewrite (no_sep_not_absolute n Hn), Hend.
  apply String.eqb_neq in Hne. now rewrite Hne.
Qed.

Lemma basename_child (d n : string) :
  str.contains posixpath.sep n = false ->
  posixpath.basename (d ++ "/" ++ n) = n.
Proof.
  intros Hn. unfold posixpath.basename. now rewrite cut_child.
Qed.

Lemma components_nonempty (p : string) : posixpath.components p <> [].
Proof.
  destruct p as [|c p]; cbn; [discriminate|].
  destruct (Ascii.eqb c posixpath.sep); [discriminate|].
  destruct (posixpath.components p); discriminate.
Qed.

Lemma components_name (n : string) :
  str.contains posixpath.sep n = false -> posixpath.components n = [n].
Proof.
  induction n as [|c n IH]; cbn [str.contains posixpath.components];
    intros H; [reflexivity|].
  apply orb_false_elim in H. destruct H as [Hc Hn].
  rewrite Hc, (IH Hn). reflexivity.
Qed.

Lemma components_child (d n : string) :
  posixpath.components (d ++ "/" ++ n)
  = (posixpath.components d ++ posixpath.components n)%list.
Proof.
  cbn [append].
  induction d as [|c d IH]; cbn [append posixpath.components].
  - reflexivity.
  - rewrite IH. destruct (Ascii.eqb c posixpath.sep); [reflexivity|].
    pose proof (components_nonempty d) as Hd.
    destruct (posixpath.components d); [congruence|reflexivity].
Qed.

Lemma valid_name_inv (n : string) :
  valid_name n = true ->
  (n =? "") = false /\ (n =? ".") = false /\ (n =? "..") = false
  /\ str.contains posixpath.sep n = false.
Proof.
  unfold valid_name. intros H.
  repeat (apply andb_prop in H; destruct H as [H ?]).
  repeat split; now apply negb_true_iff.
Qed.

(** One more component at the end of a path is looked up in the directory
    the path leads to. *)
Lemma walk_child (n : string) (cs : list string) :
  valid_name n = true ->
  forall (up : list node) (cur : node),
    walk up cur (cs ++ [n])
    = match walk up cur cs with
      | Some (Dir es) => lookup n es
      | _ => None
      end.
Proof.
  intros Hn. destruct (valid_name_inv n Hn) as (H0 & H1 & H2 & _).
  induction cs as [|c cs IH]; intros up cur.
  - cbn. destruct cur as [f|es]; [reflexivity|].
    rewrite H0, H1, H2. cbn. now destruct (lookup n es).
  - cbn [app walk]. destruct cur as [f|es]; [reflexivity|].
    destruct ((c =? "") || (c =? ".")); [apply IH|].
    destruct (c =? "..").
    + destruct up; apply IH.
    + destruct (lookup c es); [apply IH|reflexivity].
Qed.

Lemma resolve_child (root : node) (d n : string)
      (es : list (string * node)) :
  resolve root d = Some (Dir es) ->
  valid_name n = true ->
  resolve root (d ++ "/" ++ n) = lookup n es.
Proof.
  unfold resolve. intros Hd Hn.
  destruct (valid_name_inv n Hn) as (_ & _ & _ & Hsep).
  destruct (d =? "") eqn:Ed; [discriminate|].
  replace (d ++ "/" ++ n =? "") with false
    by (destruct d; [discriminate|reflexivity]).
  rewrite components_child, (components_name n Hsep), (walk_child n _ Hn).
  now rewrite Hd.
Qed.

Lemma lookup_entry (es : list (string * node)) (n : string) (x : node) :
  distinct (map fst es) = true -> In (n, x) es -> lookup n es = Some x.
Proof.
  induction es as [|[n0 x0] es IH]; cbn [map fst distinct lookup];
    intros Hd Hin; [contradiction|].
  apply andb_prop in Hd. destruct Hd as [Hfresh Hd].
  destruct Hin as [Heq|Hin].
  - injection Heq as -> ->. now rewrite String.eqb_refl.
  - destruct (String.eqb_spec n0 n) as [->|Hne]; [|now apply IH].
    apply negb_true_iff in Hfresh.
    assert (existsb (String.eqb n) (map fst es) = true) as Hex.
    { apply existsb_exists. exists n. split; [|apply String.eqb_refl].
      apply in_map_iff. now exists (n, x). }
    congruence.
Qed.

Lemma filter_filter {A : Type} (f g : A -> bool) (l : list A) :
  filter f (filter g l) = filter (fun x => g x && f x) l.
Proof.
  induction l as [|a l IH]; cbn [filter]; [reflexivity|].
  destruct (g a); cbn [filter andb]; rewrite IH; reflexivity.
Qed.

(** [glob] on a pattern whose magic is all in the last component: the
    names [_glob1] selects in the directory, each joined to it. *)
Lemma glob_in_directory {rt : PyRuntime} (root : node) (d pat : string) :
  d <> "" -> str.endswith d "/" = false -> glob.has_magic d = false ->
  str.contains posixpath.sep pat = false -> glob.has_magic pat = true ->
  glob.glob root (d ++ "/" ++ pat)
  = map (fun name => posixpath.join d [name])
        (glob._glob1 root d pat false).
Proof.
  intros Hne Hend Hmag Hsep Hpat. unfold glob.glob.
  cbn [glob._iglob]. rewrite (split_child d pat Hne Hend Hsep).
  rewrite !has_magic_append, Hmag, Hpat, orb_true_r.
  apply String.eqb_neq in Hne. rewrite Hne, andb_false_r.
  cbn [negb flat_map]. now rewrite app_nil_r.
Qed.

Lemma _listdir_entries (root : node) (d : string)
      (es : list (string * node)) :
  resolve root d = Some (Dir es) ->
  glob._listdir root d false = map fst es.
Proof.
  intros Hd. unfold glob._listdir.
  destruct (d =? "") eqn:Ed.
  - apply String.eqb_eq in Ed. subst d. discriminate.
  - rewrite Hd. cbn [negb orb]. now rewrite filter_true.
Qed.

Lemma well_formed_entries_inv (es : list (string * node)) :
  well_formed_entries es = true ->
  distinct (map fst es) = true
  /\ forall e, In e es -> valid_name (fst e) = true.
Proof.
  unfold well_formed_entries. intros H. apply andb_prop in H.
  destruct H as [Hv Hd]. split; [assumption|].
  now apply forallb_forall.
Qed.

(** In a well-formed directory that [d] names without magic characters,
    the pattern [d/pat] matches the visible names [pat] matches. *)
Lemma glob_names {rt : PyRuntime} (root : node) (d pat : string)
      (es : list (string * node)) :
  d <> "" -> str.endswith d "/" = false -> glob.has_magic d = false ->
  str.contains posixpath.sep pat = false -> glob.has_magic pat = true ->
  glob._ishidden pat = false ->
  resolve root d = Some (Dir es) ->
  well_formed_entries es = true ->
  glob.glob root (d ++ "/" ++ pat)
  = map (fun e => d ++ "/" ++ fst e)
        (filter (fun e => negb (glob._ishidden (fst e)) && fnmatch (fst e) pat)
                es).
Proof.
  intros Hne Hend Hmag Hsep Hpat Hhid Hd Hwf.
  destruct (well_formed_entries_inv es Hwf) as [_ Hvalid].
  rewrite (glob_in_directory root d pat Hne Hend Hmag Hsep Hpat).
  unfold glob._glob1. rewrite (_listdir_entries root d es Hd), Hhid.
  cbn [negb]. rewrite filter_filter, filter_map_swap, map_map.
  apply map_ext_in. intros e He. apply filter_In in He. destruct He as [He _].
  apply join2_child; try assumption.
  now destruct (valid_name_inv _ (Hvalid e He)) as (_ & _ & _ & ?).
Qed.


(** The dates are read off the visible names that [*.log] matches in the
    directory of the window. *)
Lemma GetLogsDates_entries {rt : PyRuntime} (home : string) (fs : node)
      (pb : IrcLogPathBuilder.t) (window : string)
      (es : list (string * node)) :
  let dir :=
    posixpath.join (IrcLogPathBuilder.__getBasePath home pb) [window] in
  dir <> "" -> str.endswith dir "/" = false ->
  glob.has_magic dir = false ->
  resolve fs dir = Some (Dir es) ->
  well_formed_entries es = true ->
  IrcLogPathBuilder.GetLogsDates home fs pb window
  = map (fun e => str.replace (fst e) ".log" "")
        (filter (fun e => negb (glob._ishidden (fst e))
                          && fnmatch (fst e) "*.log")
                es).
Proof.
  intros dir Hne Hend Hmag Hd Hwf.
  destruct (well_formed_entries_inv es Hwf) as [_ Hvalid].
  unfold IrcLogPathBuilder.GetLogsDates.
  change (posixpath.join (IrcLogPathBuilder.__getBasePath home pb)
                         [window; "*.log"])
    with (posixpath.join dir ["*.log"]).
  rewrite (join2_child dir "*.log" Hne Hend eq_refl).
  rewrite (glob_names fs dir "*.log" es Hne Hend Hmag eq_refl eq_refl eq_refl
                      Hd Hwf).
  rewrite map_map. apply map_ext_in. intros e He. apply filter_In in He.
  destruct He as [He _]. f_equal. apply basename_child.
  now destruct (valid_name_inv _ (Hvalid e He)) as (_ & _ & _ & ?).
Qed.

(** ** Listing dates and windows *)

Lemma startswith_dotlog_append (a : ascii) (d : string) :
  str.startswith (String a d) ".log" = false ->
  str.startswith (String a d ++ ".log") ".log" = false.
Proof.
  destruct d as [|b [|c [|e d]]]; cbn;
    repeat match goal with
           | |- context [Ascii.eqb ?x ?y] => destruct (Ascii.eqb x y)
           end;
    cbn; auto.
Qed.

(** Taking ".log" out of a name that holds it at the end only gives the
    stem. *)
Lemma replace_stem (d : string) :
  substring_of ".log" d = false -> str.replace (d ++ ".log") ".log" "" = d.
Proof.
  unfold str.replace. cbn [String.eqb].
  induction d as [|c d IH]; intros H.
  - reflexivity.
  - cbn [substring_of] in H. apply orb_false_elim in H.
    destruct H as [Hhere Hlater].
    change (String c d ++ ".log") with (String c (d ++ ".log")).
    cbn [str.replace_scan].
    change (String c (d ++ ".log")) with (String c d ++ ".log").
    rewrite (startswith_dotlog_append _ _ Hhere).
    now rewrite (IH Hlater).
Qed.



Lemma tame_inv (s : string) :
  glob.tame s = true ->
  str.contains glob.NUL s = false /\ glob.has_magic s = false.
Proof.
  unfold glob.tame. intros H. apply andb_prop in H.
  destruct H as [H1 H2]. split; now apply negb_true_iff.
Qed.






Lemma length_pos_cases {A : Type} (l : list A) :
  (0 <? List.length l)%nat = match l with [] => false | _ :: _ => true end.
Proof.
  now destruct l.
Qed.



(** ** Date stems *)

(** C5.  [GetLogsDates] drops every occurrence of ".log" from the name of a
    matching file, not the extension alone: the file "backup.log.log" is
    listed as "backup" where its stem is "backup.log", and the date listed
    names no log that [LogCat] can find. *)
Theorem GetLogsDates_strips_inner_log :
  glob.glob demo_fs
            "/home/alice/.znc/users/alice/moddata/log/libera/#chan/*.log"
  = ["/home/alice/.znc/users/alice/moddata/log/libera/#chan/2023-01-02.log";
     "/home/alice/.znc/users/alice/moddata/log/libera/#chan/2023-01-01.log";
     "/home/alice/.znc/users/alice/moddata/log/libera/#chan/backup.log.log";
     "/home/alice/.znc/users/alice/moddata/log/libera/#chan/locked.log"]
  /\ map (fun fn => str.strip_suffix ".log" (posixpath.basename fn))
         (glob.glob demo_fs
            "/home/alice/.znc/users/alice/moddata/log/libera/#chan/*.log")
     = [Some "2023-01-02"; Some "2023-01-01"; Some "backup.log";
        Some "locked"]
  /\ IrcLogPathBuilder.GetLogsDates
       "/home/alice" demo_fs (IrcLogPathBuilder.__init__ "libera" "alice")
       "#chan"
     = ["2023-01-02"; "2023-01-01"; "backup"; "locked"]
  /\ IrcLog.Exists demo_fs
                   (IrcLog.__init__ "/home/alice" "libera" "alice"
                                    "#chan" "backup")
     = false.
Proof.
  repeat split.
Qed.

(** ** The module at work *)

(** The help listing names the commands in the order of registration. *)
Example help_listing :
  logviewer.OnModCommand loaded_module demo_env "HELP"
  = (["View and search logs.";
      "---------------------";
      "Available commands: ";
      "LogCat - View log file for window and date (current network).";
      "LogGrep - Grep log file for window and date (current network) with regex.";
      "LogDates - List all available dates for window.";
      "LogWindows - List all available windows.";
      "Use " ++ DQUOTE ++ "<command> help" ++ DQUOTE ++ " for usage info."],
     Returned true).
Proof.
  reflexivity.
Qed.

(** A window is a glob pattern too: [*] lists the dates of every window. *)
Example dates_of_every_window :
  logviewer.OnModCommand loaded_module demo_env "LogDates *"
  = (["List of all available log date for window *:";
      "2023-01-01"; "2023-01-02"; "backup"; "locked"],
     Returned true).
Proof.
  reflexivity.
Qed.

(** A wrong number of arguments and the word "help" give the same usage
    lines. *)
Example usage_lines :
  logviewer.OnModCommand loaded_module demo_env "LogWindows extra"
  = (["LogWindows "; "List all available windows."], Returned true)
  /\ logviewer.OnModCommand loaded_module demo_env "logwindows HELP"
     = (["LogWindows "; "List all available windows."], Returned true).
Proof.
  split; reflexivity.
Qed.

(** * Further properties of the code *)

(** ** Usage *)

(** X1.  An argument list whose first word is "help" in any case makes
    [Perform] print the two usage lines and return, whatever the other
    arguments are and without running the action of the command: even a
    command whose action raises gets its usage printed. *)
Theorem Perform_help_prints_usage (cmd : AbstractLogViewerCommand)
        (env : Env) (a0 : string) (rest : list string)
        (Hhelp : str.lower a0 = "help") :
  Perform cmd env (Some (a0 :: rest)) = (usage (attrs cmd), Returned tt).
Proof.
  unfold Perform. rewrite Hhelp. reflexivity.
Qed.

Lemma Perform_help_prints_usage_witness :
  Perform (mkCommand (mkAttrs "Probe" "no action" "<x>") Abstract_DoPerform)
          demo_env (Some ["HeLp"; "more"; "words"])
  = (["Probe <x>"; "no action"], Returned tt)
  /\ Perform (mkCommand (mkAttrs "Probe" "no action" "<x>")
                        Abstract_DoPerform)
             demo_env (Some ["other"])
     = ([], Raised (NotImplementedError "")).
Proof.
  split.
  - apply (Perform_help_prints_usage
             (mkCommand (mkAttrs "Probe" "no action" "<x>")
                        Abstract_DoPerform)
             demo_env "HeLp" ["more"; "words"]).
    reflexivity.
  - reflexivity.
Defined.

(** X2.  Each of the four commands checks the number of its arguments
    before anything else: with any other number than 2 (LogCat), 3
    (LogGrep), 1 (LogDates) or 0 (LogWindows) it prints its usage and
    returns, and the disk plays no part in the result. *)
Theorem wrong_argument_count_prints_usage {rt : PyRuntime}
        (self : Attrs) (env : Env) (args : list string) :
  (List.length args <> 2 ->
   LogCat_DoPerform self env args = (usage self, Returned tt))
  /\ (List.length args <> 3 ->
      LogGrep_DoPerform self env args = (usage self, Returned tt))
  /\ (List.length args <> 1 ->
      LogDates_DoPerform self env args = (usage self, Returned tt))
  /\ (List.length args <> 0 ->
      LogWindows_DoPerform self env args = (usage self, Returned tt)).
Proof.
  repeat split; intros Hlen;
    destruct args as [|a [|b [|c [|d args]]]];
    cbn [List.length] in Hlen; try congruence; reflexivity.
Qed.

Lemma wrong_argument_count_prints_usage_witness :
  LogCat_DoPerform (attrs LogCatCommand) demo_env ["#chan"]
  = (["LogCat <window> <date>";
      "View log file for window and date (current network)."],
     Returned tt)
  /\ LogWindows_DoPerform (attrs LogWindowsCommand) demo_env ["#chan"]
     = (["LogWindows "; "List all available windows."], Returned tt).
Proof.
  split.
  - apply (proj1 (wrong_argument_count_prints_usage
                    (attrs LogCatCommand) demo_env ["#chan"])).
    discriminate.
  - apply (proj2 (proj2 (proj2 (wrong_argument_count_prints_usage
                    (attrs LogWindowsCommand) demo_env ["#chan"])))).
    discriminate.
Defined.

(** ** Reading with faults *)

Lemma for_each_ext {A : Type} (f g : A -> M unit) (xs : list A) :
  (forall x, f x = g x) -> for_each xs f = for_each xs g.
Proof.
  intros H. induction xs as [|x xs IH]; cbn [for_each]; [reflexivity|].
  now rewrite H, IH.
Qed.

(** X3.  For a log file that exists, [LogCat] prints the header, then the
    lines the file delivers before its I/O fault (all of them when there is
    none), then the fault as one "ERROR: " line; it returns normally in
    every case, so a read that breaks half way keeps the lines already
    printed. *)
Theorem showLog_with_faults {rt : PyRuntime} (env : Env)
        (window date : string) (f : file) :
  let path :=
    IrcLogPathBuilder.GetLogPath
      (env_home env)
      (IrcLogPathBuilder.__init__ (env_network env) (env_user env))
      window date in
  file_at (env_fs env) path = Some f ->
  LogCat__showLog env window date
  = (("Content of " ++ path ++ ":")
       :: List.app (delivered_lines f) (fault_report f),
     Returned tt).
Proof.
  intros path Hf.
  unfold LogCat__showLog, IrcLog.Exists, IrcLog.__enter__.
  change (IrcLog.GetPath
            (IrcLog.__init__ (env_home env) (env_network env)
                             (env_user env) window date)) with path.
  rewrite (file_at_isfile _ _ _ Hf). cbn [negb].
  pose proof (scan_file (fun _ => true) _ _ _ Hf) as Hscan.
  rewrite filter_all in Hscan.
  change (fun line : string => if true then Print line else ret tt)
    with (fun line : string => Print line) in Hscan.
  rewrite Hscan. unfold Print at 1. now rewrite bind_PutModule.
Qed.

Lemma showLog_with_faults_witness :
  LogCat__showLog flaky_env "w" "d"
  = (["Content of /h/.znc/users/u/moddata/log/n/w/d.log:";
      "one" ++ NL; "two" ++ NL;
      "ERROR: [Errno 5] Input/output error"], Returned tt).
Proof.
  refine (showLog_with_faults flaky_env "w" "d" flaky _).
  reflexivity.
Defined.

(** X4.  For a log file that exists and a pattern that compiles, [LogGrep]
    prints its header, then those of the lines delivered before the fault
    in which the pattern is found, then the fault as one "ERROR: " line,
    and returns normally.  What it prints between header and fault is
    what [LogCat] prints there, filtered. *)
Theorem grepLog_with_faults {rt : PyRuntime} (env : Env)
        (window date regex : string) (f : file)
        (search : string -> bool) :
  let path :=
    IrcLogPathBuilder.GetLogPath
      (env_home env)
      (IrcLogPathBuilder.__init__ (env_network env) (env_user env))
      window date in
  file_at (env_fs env) path = Some f ->
  re_compile regex = inr search ->
  LogGrep__grepLog env window date regex
  = (("Content of " ++ path ++ " matching " ++ regex ++ ":")
       :: List.app (filter search (delivered_lines f)) (fault_report f),
     Returned tt).
Proof.
  intros path Hf Hre.
  unfold LogGrep__grepLog, IrcLog.Exists, IrcLog.__enter__.
  change (IrcLog.GetPath
            (IrcLog.__init__ (env_home env) (env_network env)
                             (env_user env) window date)) with path.
  rewrite (file_at_isfile _ _ _ Hf), Hre. cbn [negb].
  rewrite (scan_file search _ _ _ Hf).
  unfold Print at 1. now rewrite bind_PutModule.
Qed.

Lemma grepLog_with_faults_witness :
  LogGrep__grepLog flaky_env "w" "d" "o"
  = (["Content of /h/.znc/users/u/moddata/log/n/w/d.log matching o:";
      "one" ++ NL; "two" ++ NL;
      "ERROR: [Errno 5] Input/output error"], Returned tt).
Proof.
  refine (grepLog_with_faults flaky_env "w" "d" "o" flaky
                              (substring_of "o") _ _); reflexivity.
Defined.

(** ** Commands that always return *)

Lemma isfile_file_at (root : node) (path : string) :
  isfile root path = true -> exists f, file_at root path = Some f.
Proof.
  unfold isfile, file_at.
  destruct (resolve root path) as [[f|es]|]; try discriminate.
  intros _. now exists f.
Qed.

Lemma snd_try_except_PrintErr (m : M unit) :
  snd (try_except m (fun e => PrintErr (exn_str e))) = Returned tt.
Proof.
  destruct m as [out [[]|e]]; reflexivity.
Qed.

Lemma snd_bind_PutModule {B : Type} (x : string) (k : unit -> M B) :
  snd (bind (PutModule x) k) = snd (k tt).
Proof.
  now rewrite bind_PutModule.
Qed.

Lemma showLog_returns {rt : PyRuntime} (env : Env) (window date : string) :
  snd (LogCat__showLog env window date) = Returned tt.
Proof.
  unfold LogCat__showLog.
  destruct (negb _); [reflexivity|].
  unfold Print at 1. rewrite snd_bind_PutModule.
  apply snd_try_except_PrintErr.
Qed.

Lemma grepLog_returns {rt : PyRuntime} (env : Env)
      (window date regex : string) :
  snd (LogGrep__grepLog env window date regex) = Returned tt.
Proof.
  unfold LogGrep__grepLog.
  destruct (negb _); [reflexivity|].
  unfold Print at 1. rewrite snd_bind_PutModule.
  apply snd_try_except_PrintErr.
Qed.

(** Each shipped command returns normally on every argument list. *)
Lemma shipped_commands_return {rt : PyRuntime} (cmd : AbstractLogViewerCommand)
      (env : Env) (args : list string) :
  In cmd [LogCatCommand; LogGrepCommand; LogDatesCommand; LogWindowsCommand] ->
  snd (_DoPerform cmd (attrs cmd) env args) = Returned tt.
Proof.
  intros Hin. cbn [In] in Hin.
  destruct Hin as [<-|[<-|[<-|[<-|[]]]]]; cbn [_DoPerform LogCatCommand
    LogGrepCommand LogDatesCommand LogWindowsCommand].
  - unfold LogCat_DoPerform.
    destruct args as [|a [|b [|c args]]]; try reflexivity.
    apply showLog_returns.
  - unfold LogGrep_DoPerform.
    destruct args as [|a [|b [|c [|d args]]]]; try reflexivity.
    apply grepLog_returns.
  - unfold LogDates_DoPerform.
    destruct args as [|a [|b args]]; try reflexivity.
    destruct (0 <? _)%nat; [|reflexivity].
    unfold Print at 1. now rewrite snd_bind_PutModule, for_each_Print.
  - unfold LogWindows_DoPerform.
    destruct args as [|a args]; try reflexivity.
    destruct (0 <? _)%nat; [|reflexivity].
    unfold Print at 1. now rewrite snd_bind_PutModule, for_each_Print.
Qed.

Lemma for_each_PutModule_map {A : Type} (g : A -> string) (xs : list A) :
  for_each xs (fun x => PutModule (g x)) = (map g xs, Returned tt).
Proof.
  induction xs as [|x xs IH]; cbn [for_each map]; [reflexivity|].
  now rewrite bind_PutModule, IH.
Qed.

(** X5.  Once the module is loaded, every line of ASCII characters that
    holds at least one word is handled without an exception reaching the
    host, whatever the verb, the arguments, the disk or the pattern,
    provided that the line holds no NUL and that what [glob] is given is
    tame: the home directory, the user and the network, and the window of
    a LogDates request, hold no NUL and no magic character.
    [OnModCommand] then returns [True]. *)
Theorem OnModCommand_returns_True {rt : PyRuntime} (env : Env)
        (line : string)
        (Hascii : str.isascii line = true)
        (Hnul : str.contains glob.NUL line = false)
        (Henv : tame_env env = true)
        (Hdates : forall v w : string,
            str.split line = [v; w] -> str.lower v = "logdates" ->
            glob.tame w = true)
        (Hword : str.split line <> []) :
  snd (logviewer.OnModCommand loaded_module env line) = Returned true.
Proof.
  rewrite loaded_module_eq. unfold logviewer.OnModCommand.
  cbn [logviewer.__cmdDispatcher].
  assert (snd (Dispatch
                 (LogViewerCommandDispatcher.mk
                    [("logcat", LogCatCommand); ("loggrep", LogGrepCommand);
                     ("logdates", LogDatesCommand);
                     ("logwindows", LogWindowsCommand)]) env line)
          = Returned tt) as HD.
  { unfold Dispatch.
    destruct (str.split line) as [|args0 rest]; [congruence|].
    cbn [__commands].
    destruct (dict_get _ (str.lower args0)) as [cmd|] eqn:Hget.
    - assert (In cmd [LogCatCommand; LogGrepCommand; LogDatesCommand;
                      LogWindowsCommand]) as Hin.
      { cbn [dict_get] in Hget.
        repeat match type of Hget with
               | (if ?b then _ else _) = _ => destruct b
               end;
          try discriminate; injection Hget as <-; cbn; auto. }
      unfold Perform.
      destruct (match cmdArgs (args0 :: rest) with
                | Some (a0 :: _) => str.lower a0 =? "help"
                | _ => false
                end); [reflexivity|].
      now apply shipped_commands_return.
    - destruct (str.lower args0 =? "help"); [|reflexivity].
      rewrite !snd_bind_PutModule, for_each_PutModule_map. reflexivity. }
  destruct (Dispatch _ env line) as [out r]. cbn [snd] in HD. subst r.
  reflexivity.
Qed.

Lemma OnModCommand_returns_True_witness :
  snd (logviewer.OnModCommand loaded_module demo_env
                              "LogGrep #chan locked (")
  = Returned true
  /\ snd (logviewer.OnModCommand loaded_module demo_env "nonsense")
     = Returned true.
Proof.
  split; apply OnModCommand_returns_True;
    solve [reflexivity | discriminate | intros v w H; discriminate H].
Defined.

(** ** From the line to the action *)

(** X6.  A line of ASCII characters and of three words whose verb is
    "LogCat" in any case runs
    [__showLog] on the two words that follow, taken as they are, and a
    line of four words whose verb is "LogGrep" runs [__grepLog] on the
    three that follow, unless the first of them is "help" in any case, in
    which case the usage is printed: the log of a window called "help"
    cannot be shown. *)
Theorem Dispatch_runs_the_action {rt : PyRuntime} (env : Env)
        (line verb window date : string) (more : list string)
        (Hascii : str.isascii line = true)
        (Hline : str.split line = verb :: window :: date :: more) :
  let d := LogViewerCommandDispatcher.mk
             [("logcat", LogCatCommand); ("loggrep", LogGrepCommand);
              ("logdates", LogDatesCommand);
              ("logwindows", LogWindowsCommand)] in
  (str.lower verb = "logcat" -> more = [] ->
   Dispatch d env line
   = if str.lower window =? "help"
     then (usage (attrs LogCatCommand), Returned tt)
     else LogCat__showLog env window date)
  /\ (forall regex, str.lower verb = "loggrep" -> more = [regex] ->
      Dispatch d env line
      = if str.lower window =? "help"
        then (usage (attrs LogGrepCommand), Returned tt)
        else LogGrep__grepLog env window date regex).
Proof.
  intros d. split.
  - intros Hv ->. unfold Dispatch. rewrite Hline, Hv.
    cbn [d __commands dict_get String.eqb Ascii.eqb Bool.eqb].
    unfold Perform. cbn [cmdArgs List.length Nat.ltb Nat.leb tl].
    destruct (str.lower window =? "help"); reflexivity.
  - intros regex Hv ->. unfold Dispatch. rewrite Hline, Hv.
    unfold Perform. cbn [cmdArgs List.length Nat.ltb Nat.leb tl].
    destruct (str.lower window =? "help"); reflexivity.
Qed.

Lemma Dispatch_runs_the_action_witness :
  Dispatch (LogViewerCommandDispatcher.mk
              [("logcat", LogCatCommand); ("loggrep", LogGrepCommand);
               ("logdates", LogDatesCommand);
               ("logwindows", LogWindowsCommand)])
           demo_env "LOGCAT #chan 2023-01-01"
  = LogCat__showLog demo_env "#chan" "2023-01-01"
  /\ Dispatch (LogViewerCommandDispatcher.mk
                 [("logcat", LogCatCommand); ("loggrep", LogGrepCommand);
                  ("logdates", LogDatesCommand);
                  ("logwindows", LogWindowsCommand)])
              demo_env "logcat Help 2023-01-01"
     = (["LogCat <window> <date>";
         "View log file for window and date (current network)."],
        Returned tt).
Proof.
  split.
  - refine (proj1 (Dispatch_runs_the_action
                     demo_env "LOGCAT #chan 2023-01-01" "LOGCAT" "#chan"
                     "2023-01-01" [] _ _) _ _); reflexivity.
  - refine (proj1 (Dispatch_runs_the_action
                     demo_env "logcat Help 2023-01-01" "logcat" "Help"
                     "2023-01-01" [] _ _) _ _); reflexivity.
Defined.

(** ** The registry *)

Lemma dict_in_keys (d : dict) (k : string) :
  dict_in k d = true <-> In k (keys d).
Proof.
  unfold dict_in, keys.
  induction d as [|[k' v] d IH]; cbn [dict_get map fst In].
  - split; [discriminate|contradiction].
  - destruct (String.eqb_spec k' k) as [->|Hne].
    + split; auto.
    + rewrite IH. split; [auto|]. intros [H|H]; [congruence|exact H].
Qed.

Lemma dict_set_absent (d : dict) (k : string)
      (v : AbstractLogViewerCommand) :
  dict_in k d = false -> dict_set d k v = (d ++ [(k, v)])%list.
Proof.
  unfold dict_in.
  induction d as [|[k' v'] d IH]; cbn [dict_get dict_set app]; intros H.
  - reflexivity.
  - destruct (k' =? k); [discriminate|]. now rewrite IH.
Qed.

Lemma dict_get_app_absent (d : dict) (k k' : string)
      (v : AbstractLogViewerCommand) :
  dict_get (d ++ [(k, v)])%list k'
  = match dict_get d k' with
    | Some c => Some c
    | None => if k =? k' then Some v else None
    end.
Proof.
  induction d as [|[k0 v0] d IH]; cbn [dict_get app].
  - reflexivity.
  - destruct (k0 =? k'); [reflexivity|exact IH].
Qed.

(** X7.  A registration that succeeds, of a command whose name is made of
    ASCII characters, puts the command last in the registry under its
    lower-cased name, where a lookup finds it; every command registered
    before stays where it was, under the same key: nothing is ever
    overwritten. *)
Theorem AddCommand_registers (d d' : LogViewerCommandDispatcher.t)
        (c : AbstractLogViewerCommand)
        (Hascii : str.isascii (GetName c) = true)
        (Hadd : AddCommand d c = Returned d') :
  __commands d' = (__commands d ++ [(str.lower (GetName c), c)])%list
  /\ dict_get (__commands d') (str.lower (GetName c)) = Some c
  /\ (forall k c0, dict_get (__commands d) k = Some c0 ->
                   dict_get (__commands d') k = Some c0)
  /\ (forall k, k <> str.lower (GetName c) ->
                dict_get (__commands d') k = dict_get (__commands d) k).
Proof.
  unfold AddCommand in Hadd.
  destruct (dict_in (str.lower (GetName c)) (__commands d)) eqn:Hin;
    [discriminate|].
  injection Hadd as <-. cbn [__commands].
  rewrite (dict_set_absent _ _ _ Hin).
  repeat split.
  - rewrite dict_get_app_absent. unfold dict_in in Hin.
    destruct (dict_get (__commands d) (str.lower (GetName c)));
      [discriminate|].
    now rewrite String.eqb_refl.
  - intros k c0 Hk. now rewrite dict_get_app_absent, Hk.
  - intros k Hk. rewrite dict_get_app_absent.
    destruct (dict_get (__commands d) k); [reflexivity|].
    apply not_eq_sym, String.eqb_neq in Hk. now rewrite Hk.
Qed.

Lemma AddCommand_registers_witness :
  dict_get
    [("logcat", LogCatCommand); ("loggrep", LogGrepCommand)]
    "loggrep"
  = Some LogGrepCommand.
Proof.
  refine (proj1 (proj2
    (AddCommand_registers
       (LogViewerCommandDispatcher.mk [("logcat", LogCatCommand)])
       (LogViewerCommandDispatcher.mk
          [("logcat", LogCatCommand); ("loggrep", LogGrepCommand)])
       LogGrepCommand _ _))); reflexivity.
Defined.

Lemma AddCommands_distinct (cmds : list AbstractLogViewerCommand) :
  forall d : dict,
    NoDup (keys d ++ map (fun c => str.lower (GetName c)) cmds)%list ->
    logviewer.AddCommands (LogViewerCommandDispatcher.mk d) cmds
    = (LogViewerCommandDispatcher.mk
         (d ++ map (fun c => (str.lower (GetName c), c)) cmds)%list,
       None).
Proof.
  induction cmds as [|c cs IH]; intros d Hnd; cbn [logviewer.AddCommands map].
  - now rewrite app_nil_r.
  - unfold AddCommand. cbn [__commands].
    assert (dict_in (str.lower (GetName c)) d = false) as Hfresh.
    { destruct (dict_in (str.lower (GetName c)) d) eqn:E; [|reflexivity].
      apply dict_in_keys in E. cbn [map] in Hnd.
      apply NoDup_remove_2 in Hnd. elim Hnd. apply in_or_app. now left. }
    rewrite Hfresh, (dict_set_absent _ _ _ Hfresh), IH.
    + now rewrite <- app_assoc.
    + unfold keys in *. rewrite map_app, <- app_assoc. exact Hnd.
Qed.

(** X8.  For handlers whose names are made of ASCII characters, [OnLoad]
    succeeds exactly when the names of the handlers it registers are
    pairwise different once lower-cased; it then leaves the message
    untouched and the registry holds the handlers in the order of
    registration, each under its lower-cased name. *)
Theorem OnLoad_succeeds_iff_distinct
        (cmds : list AbstractLogViewerCommand) (self : logviewer.t)
        (args message : string)
        (Hascii : forallb (fun c => str.isascii (GetName c)) cmds = true) :
  (snd (logviewer.OnLoad_registering cmds self args message) = true
   <-> NoDup (map (fun c => str.lower (GetName c)) cmds))
  /\ (NoDup (map (fun c => str.lower (GetName c)) cmds) ->
      logviewer.OnLoad_registering cmds self args message
      = (logviewer.mk
           (Some (LogViewerCommandDispatcher.mk
                    (map (fun c => (str.lower (GetName c), c)) cmds))),
         message, true)).
Proof.
  assert (NoDup (map (fun c => str.lower (GetName c)) cmds) ->
          logviewer.OnLoad_registering cmds self args message
          = (logviewer.mk
               (Some (LogViewerCommandDispatcher.mk
                        (map (fun c => (str.lower (GetName c), c)) cmds))),
             message, true)) as Hok.
  { intros Hnd. unfold logviewer.OnLoad_registering,
      LogViewerCommandDispatcher.__init__.
    now rewrite (AddCommands_distinct cmds [] Hnd). }
  split; [|exact Hok]. split.
  - intros Htrue.
    destruct (ListDec.NoDup_dec string_dec
                (map (fun c => str.lower (GetName c)) cmds)) as [H|H];
      [exact H|].
    destruct (AddCommands_stops cmds LogViewerCommandDispatcher.__init__
                                (or_intror H)) as [d Hd].
    unfold logviewer.OnLoad_registering in Htrue. rewrite Hd in Htrue.
    discriminate.
  - intros Hnd. now rewrite (Hok Hnd).
Qed.

Lemma OnLoad_succeeds_iff_distinct_witness :
  logviewer.OnLoad_registering
    [LogWindowsCommand; LogCatCommand] logviewer.unloaded "" "kept"
  = (logviewer.mk
       (Some (LogViewerCommandDispatcher.mk
                [("logwindows", LogWindowsCommand);
                 ("logcat", LogCatCommand)])),
     "kept", true).
Proof.
  refine (proj2 (OnLoad_succeeds_iff_distinct
                   [LogWindowsCommand; LogCatCommand]
                   logviewer.unloaded "" "kept" _) _).
  - reflexivity.
  - repeat constructor; cbn; intuition discriminate.
Defined.

(** X9.  When the first word of a line is "help" in any case and no command
    is registered under "help", [Dispatch] prints the three banner lines,
    then one line "{name} - {description}" for each registered command in
    the order of registration, then the hint, whatever follows the word; a
    command registered under "help" takes the line instead. *)
Theorem Dispatch_help_lists_commands
        (d : LogViewerCommandDispatcher.t) (env : Env)
        (line word : string) (rest : list string)
        (Hline : str.split line = word :: rest)
        (Hhelp : str.lower word = "help") :
  (dict_get (__commands d) "help" = None ->
   Dispatch d env line
   = (List.app
        ["View and search logs."; "---------------------";
         "Available commands: "]
        (List.app
           (map (fun c => GetName c ++ " - " ++ GetDescription c)
                (values (__commands d)))
           ["Use " ++ DQUOTE ++ "<command> help" ++ DQUOTE
              ++ " for usage info."]),
      Returned tt))
  /\ (forall cmd, dict_get (__commands d) "help" = Some cmd ->
                  Dispatch d env line
                  = Perform cmd env (cmdArgs (word :: rest))).
Proof.
  unfold Dispatch. rewrite Hline, Hhelp. split.
  - intros ->. cbn [String.eqb Ascii.eqb Bool.eqb].
    rewrite !bind_PutModule.
    change (fun aCmd => PutModule (Describe aCmd))
      with (fun aCmd => PutModule
                          ((fun c => GetName c ++ " - " ++ GetDescription c)
                             aCmd)).
    rewrite (for_each_PutModule_map
               (fun c => GetName c ++ " - " ++ GetDescription c)).
    reflexivity.
  - intros cmd ->. reflexivity.
Qed.

Lemma Dispatch_help_lists_commands_witness :
  Dispatch (LogViewerCommandDispatcher.mk
              [("logdates", LogDatesCommand);
               ("logwindows", LogWindowsCommand)])
           demo_env "Help me please"
  = (["View and search logs."; "---------------------";
      "Available commands: ";
      "LogDates - List all available dates for window.";
      "LogWindows - List all available windows.";
      "Use " ++ DQUOTE ++ "<command> help" ++ DQUOTE ++ " for usage info."],
     Returned tt).
Proof.
  refine (proj1 (Dispatch_help_lists_commands
                   (LogViewerCommandDispatcher.mk
                      [("logdates", LogDatesCommand);
                       ("logwindows", LogWindowsCommand)])
                   demo_env "Help me please" "Help" ["me"; "please"] _ _) _);
    reflexivity.
Defined.

(** ** Where a log lives *)

Lemma GetLogPath_layout_witness :
  IrcLogPathBuilder.GetLogPath
    "/home/alice" (IrcLogPathBuilder.__init__ "libera" "alice")
    "#chan" "2023-01-01"
  = "/home/alice" ++ "/.znc/users/" ++ "alice" ++ "/moddata/log/"
      ++ "libera" ++ "/" ++ "#chan" ++ "/" ++ "2023-01-01" ++ ".log".
Proof.
  apply GetLogPath_layout; solve [reflexivity | discriminate].
Defined.

(** X11.  A window that starts with a separator replaces the log root: the
    path is then built from the window and the date alone, whoever the
    user and whatever the network and the home directory are.  A date
    that starts with a separator replaces the window as well. *)
Theorem absolute_argument_leaves_log_root
        (home user network window date : string) :
  (str.startswith window "/" = true ->
   IrcLogPathBuilder.GetLogPath
     home (IrcLogPathBuilder.__init__ network user) window date
   = posixpath.join window [date ++ ".log"])
  /\ (str.startswith date "/" = true ->
      IrcLogPathBuilder.GetLogPath
        home (IrcLogPathBuilder.__init__ network user) window date
      = date ++ ".log").
Proof.
  unfold IrcLogPathBuilder.GetLogPath, posixpath.join. split; intros H.
  - cbn [fold_left]. unfold posixpath.join2 at 2. now rewrite H.
  - cbn [fold_left]. unfold posixpath.join2 at 1.
    now rewrite startswith_sep_append, H.
Qed.

Lemma absolute_argument_leaves_log_root_witness :
  IrcLogPathBuilder.GetLogPath
    "/home/alice" (IrcLogPathBuilder.__init__ "libera" "alice")
    "/var/log" "syslog"
  = "/var/log/syslog.log"
  /\ IrcLogPathBuilder.GetLogPath
       "/home/alice" (IrcLogPathBuilder.__init__ "libera" "alice")
       "#chan" "/etc/app"
     = "/etc/app.log".
Proof.
  split.
  - apply (proj1 (absolute_argument_leaves_log_root
                    "/home/alice" "alice" "libera" "/var/log" "syslog")).
    reflexivity.
  - apply (proj2 (absolute_argument_leaves_log_root
                    "/home/alice" "alice" "libera" "#chan" "/etc/app")).
    reflexivity.
Defined.

Lemma append_inv_head (p x y : string) : p ++ x = p ++ y -> x = y.
Proof.
  induction p as [|c p IH]; cbn [append]; intros H; [exact H|].
  injection H as H. now apply IH.
Qed.

Lemma append_inv_tail (t : string) :
  forall x y : string, x ++ t = y ++ t -> x = y.
Proof.
  induction x as [|a x IH]; destruct y as [|b y]; cbn [append]; intros H.
  - reflexivity.
  - apply (f_equal String.length) in H. cbn in H.
    rewrite length_append in H. lia.
  - apply (f_equal String.length) in H. cbn in H.
    rewrite length_append in H. lia.
  - injection H as -> H. f_equal. now apply IH.
Qed.

Lemma split_at_first_sep (w1 : string) :
  forall w2 r1 r2 : string,
    str.contains posixpath.sep w1 = false ->
    str.contains posixpath.sep w2 = false ->
    w1 ++ String posixpath.sep r1 = w2 ++ String posixpath.sep r2 ->
    w1 = w2 /\ r1 = r2.
Proof.
  induction w1 as [|a w1 IH]; destruct w2 as [|b w2];
    cbn [append str.contains]; intros r1 r2 H1 H2 H.
  - injection H as ->. now split.
  - injection H as <- _. now rewrite Ascii.eqb_refl in H2.
  - injection H as -> _. now rewrite Ascii.eqb_refl in H1.
  - injection H as -> H.
    apply orb_false_elim in H1. apply orb_false_elim in H2.
    destruct (IH w2 r1 r2 (proj2 H1) (proj2 H2) H) as [-> ->]. now split.
Qed.

Lemma no_sep_not_endswith (n : string) :
  str.contains posixpath.sep n = false -> str.endswith n "/" = false.
Proof.
  induction n as [|c n IH]; cbn [str.contains str.endswith]; intros H.
  - reflexivity.
  - apply orb_false_elim in H. destruct H as [Hc Hn].
    rewrite (IH Hn), orb_false_r. unfold posixpath.sep in Hc.
    cbn. rewrite Hc. reflexivity.
Qed.

(** The path for a window free of separators and a date that does not start
    with one: a prefix that depends on the log root alone, then
    [window/date.log]. *)
Lemma GetLogPath_relative (home : string) (pb : IrcLogPathBuilder.t)
      (window date : string) :
  window <> "" -> str.contains posixpath.sep window = false ->
  str.startswith date "/" = false ->
  let base := IrcLogPathBuilder.__getBasePath home pb in
  IrcLogPathBuilder.GetLogPath home pb window date
  = (if (base =? "") || str.endswith base "/" then base else base ++ "/")
      ++ window ++ String posixpath.sep (date ++ ".log").
Proof.
  intros Hw0 Hw Hd base.
  unfold IrcLogPathBuilder.GetLogPath, posixpath.join. fold base.
  cbn [fold_left].
  assert (posixpath.join2 base window
          = (if (base =? "") || str.endswith base "/"
             then base else base ++ "/") ++ window) as ->.
  { unfold posixpath.join2. rewrite (no_sep_not_absolute window Hw).
    destruct ((base =? "") || str.endswith base "/"); [reflexivity|].
    now rewrite append_assoc. }
  set (P := if (base =? "") || str.endswith base "/"
            then base else base ++ "/").
  rewrite join2_plain.
  - now rewrite append_assoc.
  - destruct P; [cbn; exact Hw0|discriminate].
  - apply endswith_append; [exact Hw0|now apply no_sep_not_endswith].
  - rewrite startswith_sep_append, Hd.
    destruct date; reflexivity.
Qed.

(** X12.  Two requests with windows free of separators and dates that do
    not start with one are resolved to the same file only when they name
    the same window and the same date. *)
Theorem GetLogPath_injective (home : string) (pb : IrcLogPathBuilder.t)
        (w1 d1 w2 d2 : string)
        (Hw1 : valid_name w1 = true) (Hw2 : valid_name w2 = true)
        (Hd1 : str.startswith d1 "/" = false)
        (Hd2 : str.startswith d2 "/" = false)
        (Hsame : IrcLogPathBuilder.GetLogPath home pb w1 d1
                 = IrcLogPathBuilder.GetLogPath home pb w2 d2) :
  w1 = w2 /\ d1 = d2.
Proof.
  destruct (valid_name_inv w1 Hw1) as (N1 & _ & _ & S1).
  destruct (valid_name_inv w2 Hw2) as (N2 & _ & _ & S2).
  apply String.eqb_neq in N1, N2.
  rewrite (GetLogPath_relative home pb w1 d1 N1 S1 Hd1) in Hsame.
  rewrite (GetLogPath_relative home pb w2 d2 N2 S2 Hd2) in Hsame.
  apply append_inv_head in Hsame.
  destruct (split_at_first_sep w1 w2 _ _ S1 S2 Hsame) as [-> Hd].
  split; [reflexivity|]. now apply (append_inv_tail ".log").
Qed.

Lemma GetLogPath_injective_witness :
  "#a" = "#a" /\ "2023-01-01" = "2023-01-01".
Proof.
  apply (GetLogPath_injective
           "/home/alice" (IrcLogPathBuilder.__init__ "libera" "alice")
           "#a" "2023-01-01" "#a" "2023-01-01"); reflexivity.
Defined.

(** Without the condition on the window the paths do collide. *)
Example GetLogPath_collision :
  IrcLogPathBuilder.GetLogPath
    "/home/alice" (IrcLogPathBuilder.__init__ "libera" "alice") "a/b" "c"
  = IrcLogPathBuilder.GetLogPath
      "/home/alice" (IrcLogPathBuilder.__init__ "libera" "alice") "a" "b/c".
Proof.
  reflexivity.
Qed.

(** ** Dates and the files behind them *)

Lemma _listdir_not_dir (root : node) (d : string) (dironly : bool) :
  d <> "" -> isdir root d = false -> glob._listdir root d dironly = [].
Proof.
  intros Hne Hd. unfold glob._listdir, isdir in *.
  apply String.eqb_neq in Hne. rewrite Hne.
  destruct (resolve root d) as [[f|es]|]; [reflexivity|discriminate|reflexivity].
Qed.

Lemma glob_not_dir {rt : PyRuntime} (root : node) (d pat : string) :
  d <> "" -> str.endswith d "/" = false -> glob.has_magic d = false ->
  str.contains posixpath.sep pat = false -> glob.has_magic pat = true ->
  isdir root d = false ->
  glob.glob root (d ++ "/" ++ pat) = [].
Proof.
  intros Hne Hend Hmag Hsep Hpat Hd.
  rewrite (glob_in_directory root d pat Hne Hend Hmag Hsep Hpat).
  unfold glob._glob1. rewrite (_listdir_not_dir root d false Hne Hd).
  now destruct (negb (glob._ishidden pat)).
Qed.

Lemma LogDates_output {rt : PyRuntime} (env : Env) (window : string) :
  _DoPerform LogDatesCommand (attrs LogDatesCommand) env [window]
  = (match IrcLogPathBuilder.GetLogsDates
             (env_home env) (env_fs env)
             (IrcLogPathBuilder.__init__ (env_network env) (env_user env))
             window with
     | [] => ["ERROR: No such logs for window " ++ window]
     | dates =>
         ("List of all available log date for window " ++ window ++ ":")
           :: sorted dates
     end, Returned tt).
Proof.
  cbn [_DoPerform LogDatesCommand]. unfold LogDates_DoPerform.
  rewrite length_pos_cases.
  destruct (IrcLogPathBuilder.GetLogsDates _ _ _ _) as [|x xs];
    [reflexivity|].
  unfold Print at 1. now rewrite bind_PutModule, for_each_Print.
Qed.

Lemma LogWindows_output {rt : PyRuntime} (env : Env) :
  _DoPerform LogWindowsCommand (attrs LogWindowsCommand) env []
  = (match IrcLogPathBuilder.GetWinList
             (env_home env) (env_fs env)
             (IrcLogPathBuilder.__init__ (env_network env) (env_user env))
     with
     | [] => ["ERROR: No such windows logs"]
     | wins => "List of all available windows:" :: sorted wins
     end, Returned tt).
Proof.
  cbn [_DoPerform LogWindowsCommand]. unfold LogWindows_DoPerform.
  rewrite length_pos_cases.
  destruct (IrcLogPathBuilder.GetWinList _ _ _) as [|x xs]; [reflexivity|].
  unfold Print at 1. now rewrite bind_PutModule, for_each_Print.
Qed.

(** X13.  In a window directory the dates [LogDates] prints are read off
    the names of the entries, regular files and directories alike, that do
    not start with a dot and that [*.log] matches: each such name with every
    ".log" taken out, sorted. *)
Theorem LogDates_reads_directory {rt : PyRuntime} (env : Env)
        (window : string) (es : list (string * node)) :
  let pb := IrcLogPathBuilder.__init__ (env_network env) (env_user env) in
  let dir :=
    posixpath.join (IrcLogPathBuilder.__getBasePath (env_home env) pb)
                   [window] in
  let dates :=
    map (fun e => str.replace (fst e) ".log" "")
        (filter (fun e => negb (glob._ishidden (fst e))
                          && fnmatch (fst e) "*.log") es) in
  dir <> "" -> str.endswith dir "/" = false ->
  glob.has_magic dir = false ->
  resolve (env_fs env) dir = Some (Dir es) ->
  well_formed_entries es = true ->
  IrcLogPathBuilder.GetLogsDates (env_home env) (env_fs env) pb window
  = dates
  /\ _DoPerform LogDatesCommand (attrs LogDatesCommand) env [window]
     = (match dates with
        | [] => ["ERROR: No such logs for window " ++ window]
        | _ :: _ =>
            ("List of all available log date for window " ++ window ++ ":")
              :: sorted dates
        end, Returned tt).
Proof.
  intros pb dir dates Hne Hend Hmag Hd Hwf.
  pose proof (GetLogsDates_entries (env_home env) (env_fs env) pb window es
                                   Hne Hend Hmag Hd Hwf) as HG.
  split; [exact HG|].
  rewrite LogDates_output. fold pb. rewrite HG. fold dates.
  now destruct dates.
Qed.

Lemma LogDates_reads_directory_witness :
  _DoPerform LogDatesCommand (attrs LogDatesCommand) demo_env ["#chan"]
  = (["List of all available log date for window #chan:";
      "2023-01-01"; "2023-01-02"; "backup"; "locked"], Returned tt).
Proof.
  refine (proj2 (LogDates_reads_directory demo_env "#chan" demo_chan
                                          _ _ _ _ _)).
  - discriminate.
  - reflexivity.
  - reflexivity.
  - reflexivity.
  - reflexivity.
Defined.

(** X14.  A window whose directory does not exist, or a log root that does
    not, is no error when the path holds no NUL and no magic character:
    [GetLogsDates] and [GetWinList] return the empty list and the commands
    print their not-found line. *)
Theorem missing_directory_lists_nothing {rt : PyRuntime} (env : Env)
        (window : string) :
  let pb := IrcLogPathBuilder.__init__ (env_network env) (env_user env) in
  let base := IrcLogPathBuilder.__getBasePath (env_home env) pb in
  let dir := posixpath.join base [window] in
  (dir <> "" -> str.endswith dir "/" = false ->
   glob.tame dir = true ->
   isdir (env_fs env) dir = false ->
   IrcLogPathBuilder.GetLogsDates (env_home env) (env_fs env) pb window = []
   /\ _DoPerform LogDatesCommand (attrs LogDatesCommand) env [window]
      = (["ERROR: No such logs for window " ++ window], Returned tt))
  /\ (base <> "" -> str.endswith base "/" = false ->
      glob.tame base = true ->
      isdir (env_fs env) base = false ->
      IrcLogPathBuilder.GetWinList (env_home env) (env_fs env) pb = []
      /\ _DoPerform LogWindowsCommand (attrs LogWindowsCommand) env []
         = (["ERROR: No such windows logs"], Returned tt)).
Proof.
  intros pb base dir. split; intros Hne Hend Htame Hd;
    destruct (tame_inv _ Htame) as [_ Hmag].
  - assert (IrcLogPathBuilder.GetLogsDates
              (env_home env) (env_fs env) pb window = []) as HG.
    { unfold IrcLogPathBuilder.GetLogsDates.
      change (posixpath.join
                (IrcLogPathBuilder.__getBasePath (env_home env) pb)
                [window; "*.log"])
        with (posixpath.join dir ["*.log"]).
      rewrite (join2_child dir "*.log" Hne Hend eq_refl).
      now rewrite (glob_not_dir _ dir "*.log" Hne Hend Hmag eq_refl eq_refl
                                Hd). }
    split; [exact HG|]. rewrite LogDates_output. fold pb. now rewrite HG.
  - assert (IrcLogPathBuilder.GetWinList (env_home env) (env_fs env) pb = [])
      as HG.
    { unfold IrcLogPathBuilder.GetWinList. fold base.
      rewrite (join2_child base "*" Hne Hend eq_refl).
      now rewrite (glob_not_dir _ base "*" Hne Hend Hmag eq_refl eq_refl
                                Hd). }
    split; [exact HG|]. rewrite LogWindows_output. fold pb. now rewrite HG.
Qed.

Lemma missing_directory_lists_nothing_witness :
  _DoPerform LogDatesCommand (attrs LogDatesCommand) demo_env ["#gone"]
  = (["ERROR: No such logs for window #gone"], Returned tt)
  /\ _DoPerform LogWindowsCommand (attrs LogWindowsCommand) bare_env []
     = (["ERROR: No such windows logs"], Returned tt).
Proof.
  split.
  - refine (proj2 (proj1 (missing_directory_lists_nothing demo_env "#gone")
                         _ _ _ _)).
    + discriminate.
    + reflexivity.
    + reflexivity.
    + reflexivity.
  - refine (proj2 (proj2 (missing_directory_lists_nothing bare_env "")
                         _ _ _ _)).
    + discriminate.
    + reflexivity.
    + reflexivity.
    + reflexivity.
Defined.

(** X15.  A log kept in a regular file [d.log] of the window directory,
    where [d] does not start with a dot and holds no ".log" itself, is
    listed by [GetLogsDates] as [d], and [d] given back to [LogCat]
    resolves to that very file. *)
Theorem listed_date_resolves_to_its_file {rt : PyRuntime} (env : Env)
        (window d : string) (f : file) (es : list (string * node)) :
  let pb := IrcLogPathBuilder.__init__ (env_network env) (env_user env) in
  let dir :=
    posixpath.join (IrcLogPathBuilder.__getBasePath (env_home env) pb)
                   [window] in
  dir <> "" -> str.endswith dir "/" = false ->
  glob.has_magic dir = false ->
  resolve (env_fs env) dir = Some (Dir es) ->
  well_formed_entries es = true ->
  In (d ++ ".log", File f) es ->
  glob._ishidden (d ++ ".log") = false ->
  fnmatch (d ++ ".log") "*.log" = true ->
  substring_of ".log" d = false ->
  In d (IrcLogPathBuilder.GetLogsDates (env_home env) (env_fs env) pb window)
  /\ file_at (env_fs env)
             (IrcLogPathBuilder.GetLogPath (env_home env) pb window d)
     = Some f.
Proof.
  intros pb dir Hne Hend Hmag Hd Hwf Hin Hvis Hmatch Hstem.
  destruct (well_formed_entries_inv es Hwf) as [Hdist Hvalid].
  split.
  - rewrite (GetLogsDates_entries (env_home env) (env_fs env) pb window es
                                  Hne Hend Hmag Hd Hwf).
    apply in_map_iff. exists (d ++ ".log", File f). split.
    + now apply replace_stem.
    + apply filter_In. split; [exact Hin|].
      cbn [fst]. now rewrite Hvis, Hmatch.
  - unfold file_at.
    change (IrcLogPathBuilder.GetLogPath (env_home env) pb window d)
      with (posixpath.join dir [d ++ ".log"]).
    pose proof (Hvalid _ Hin) as Hname. cbn [fst] in Hname.
    destruct (valid_name_inv _ Hname) as (_ & _ & _ & Hsep).
    rewrite (join2_child dir (d ++ ".log") Hne Hend Hsep).
    rewrite (resolve_child _ dir _ es Hd Hname).
    now rewrite (lookup_entry es _ _ Hdist Hin).
Qed.

Lemma listed_date_resolves_to_its_file_witness :
  In "2023-01-01"
     (IrcLogPathBuilder.GetLogsDates
        (env_home demo_env) (env_fs demo_env)
        (IrcLogPathBuilder.__init__ (env_network demo_env)
                                    (env_user demo_env)) "#chan")
  /\ file_at (env_fs demo_env)
             (IrcLogPathBuilder.GetLogPath
                (env_home demo_env)
                (IrcLogPathBuilder.__init__ (env_network demo_env)
                                            (env_user demo_env))
                "#chan" "2023-01-01")
     = Some jan1.
Proof.
  refine (listed_date_resolves_to_its_file
            demo_env "#chan" "2023-01-01" jan1 demo_chan _ _ _ _ _ _ _ _ _).
  - discriminate.
  - reflexivity.
  - reflexivity.
  - reflexivity.
  - reflexivity.
  - cbn. auto.
  - reflexivity.
  - reflexivity.
  - reflexivity.
Defined.

(** ** The order of a listing *)

Lemma ascii_compare_trans (x y z : ascii) (r : comparison) :
  Ascii.compare x y = r -> Ascii.compare y z = r -> Ascii.compare x z = r.
Proof.
  unfold Ascii.compare. intros H1 H2. destruct r.
  - apply N.compare_eq_iff in H1, H2. apply N.compare_eq_iff. congruence.
  - apply N.compare_lt_iff in H1, H2. apply N.compare_lt_iff.
    eapply N.lt_trans; eassumption.
  - apply N.compare_gt_iff in H1, H2. apply N.compare_gt_iff.
    eapply N.lt_trans; eassumption.
Qed.

Lemma leb_rel_trans (a : string) :
  forall b c : string, leb_rel a b -> leb_rel b c -> leb_rel a c.
Proof.
  unfold leb_rel, String.leb.
  induction a as [|x a IH]; intros [|y b] [|z c]; cbn [String.compare];
    try easy.
  destruct (Ascii.compare x y) eqn:Exy; try easy;
    destruct (Ascii.compare y z) eqn:Eyz; try easy.
  - rewrite (ascii_compare_trans x y z Eq Exy Eyz). apply IH.
  - apply Ascii.compare_eq_iff in Exy. subst y. now rewrite Eyz.
  - apply Ascii.compare_eq_iff in Eyz. subst z. now rewrite Exy.
  - now rewrite (ascii_compare_trans x y z Lt Exy Eyz).
Qed.

Lemma sorted_unique (l1 : list string) :
  forall l2 : list string,
    StronglySorted leb_rel l1 -> StronglySorted leb_rel l2 ->
    Permutation l1 l2 -> l1 = l2.
Proof.
  induction l1 as [|a l1 IH]; intros l2 H1 H2 Hp.
  - apply Permutation_nil in Hp. now subst.
  - destruct l2 as [|b l2].
    { apply Permutation_sym, Permutation_nil in Hp. discriminate. }
    apply StronglySorted_inv in H1. destruct H1 as [H1 Ha].
    apply StronglySorted_inv in H2. destruct H2 as [H2 Hb].
    assert (a = b) as ->.
    { assert (In a (b :: l2)) as Hina
          by (apply (Permutation_in a Hp); now left).
      assert (In b (a :: l1)) as Hinb
          by (apply (Permutation_in b (Permutation_sym Hp)); now left).
      destruct Hina as [->|Hina]; [reflexivity|].
      destruct Hinb as [->|Hinb]; [reflexivity|].
      rewrite Forall_forall in Ha, Hb.
      apply String.leb_antisym; [apply (Ha _ Hinb)|apply (Hb _ Hina)]. }
    f_equal. apply IH; try assumption.
    now apply Permutation_cons_inv in Hp.
Qed.

Lemma sorted_strongly (l : list string) : StronglySorted leb_rel (sorted l).
Proof.
  apply Sorted_StronglySorted.
  - intros a b c. apply leb_rel_trans.
  - apply sorted_spec.
Qed.

Lemma sorted_of_permutation (l1 l2 : list string) :
  Permutation l1 l2 -> sorted l1 = sorted l2.
Proof.
  intros Hp. apply sorted_unique; try apply sorted_strongly.
  eapply perm_trans; [apply Permutation_sym, sorted_spec|].
  eapply perm_trans; [exact Hp|]. apply sorted_spec.
Qed.

(** X16.  What [LogDates] and [LogWindows] print does not depend on the
    order in which the directory is enumerated: two disks on which the
    resolver returns the same dates (or windows) in different orders give
    the same lines. *)
Theorem listing_ignores_enumeration_order {rt : PyRuntime}
        (env1 env2 : Env) (window : string) :
  (Permutation
     (IrcLogPathBuilder.GetLogsDates
        (env_home env1) (env_fs env1)
        (IrcLogPathBuilder.__init__ (env_network env1) (env_user env1))
        window)
     (IrcLogPathBuilder.GetLogsDates
        (env_home env2) (env_fs env2)
        (IrcLogPathBuilder.__init__ (env_network env2) (env_user env2))
        window) ->
   _DoPerform LogDatesCommand (attrs LogDatesCommand) env1 [window]
   = _DoPerform LogDatesCommand (attrs LogDatesCommand) env2 [window])
  /\ (Permutation
        (IrcLogPathBuilder.GetWinList
           (env_home env1) (env_fs env1)
           (IrcLogPathBuilder.__init__ (env_network env1) (env_user env1)))
        (IrcLogPathBuilder.GetWinList
           (env_home env2) (env_fs env2)
           (IrcLogPathBuilder.__init__ (env_network env2) (env_user env2))) ->
      _DoPerform LogWindowsCommand (attrs LogWindowsCommand) env1 []
      = _DoPerform LogWindowsCommand (attrs LogWindowsCommand) env2 []).
Proof.
  split; intros Hp.
  - rewrite !LogDates_output.
    pose proof (sorted_of_permutation _ _ Hp) as Hs.
    destruct (IrcLogPathBuilder.GetLogsDates (env_home env1) _ _ _)
      as [|x xs];
      destruct (IrcLogPathBuilder.GetLogsDates (env_home env2) _ _ _)
      as [|y ys].
    + reflexivity.
    + apply Permutation_nil in Hp. discriminate.
    + apply Permutation_sym, Permutation_nil in Hp. discriminate.
    + now rewrite Hs.
  - rewrite !LogWindows_output.
    pose proof (sorted_of_permutation _ _ Hp) as Hs.
    destruct (IrcLogPathBuilder.GetWinList (env_home env1) _ _)
      as [|x xs];
      destruct (IrcLogPathBuilder.GetWinList (env_home env2) _ _)
      as [|y ys].
    + reflexivity.
    + apply Permutation_nil in Hp. discriminate.
    + apply Permutation_sym, Permutation_nil in Hp. discriminate.
    + now rewrite Hs.
Qed.

Lemma listing_ignores_enumeration_order_witness :
  IrcLogPathBuilder.GetLogsDates
    (env_home reordered_env) (env_fs reordered_env)
    (IrcLogPathBuilder.__init__ (env_network reordered_env)
                                (env_user reordered_env)) "#chan"
  = ["locked"; "backup"; "2023-01-01"; "2023-01-02"]
  /\ _DoPerform LogDatesCommand (attrs LogDatesCommand) demo_env ["#chan"]
     = _DoPerform LogDatesCommand (attrs LogDatesCommand) reordered_env
                  ["#chan"].
Proof.
  split; [reflexivity|].
  apply (proj1 (listing_ignores_enumeration_order
                  demo_env reordered_env "#chan")).
  change (Permutation ["2023-01-02"; "2023-01-01"; "backup"; "locked"]
                      (rev ["2023-01-02"; "2023-01-01"; "backup"; "locked"])).
  apply Permutation_rev.
Defined.
